(** * RCApi: metadata look-up across scholarly providers

    A shallow embedding of [rcapi.py].  Python strings are sequences of
    code points below 256 (Rocq's [string]); Python values that travel
    through dictionaries are the JSON-like values of [pyval]; exceptions are
    the constructors of [exn]; the outside world (HTTP, the HTML parser,
    the Dimensions client, the browser driver, the configuration file) is
    a record of oracles, [world]. *)

From Stdlib Require Import List String Ascii Bool Arith ZArith Lia Permutation.
Import ListNotations.
Local Open Scope string_scope.
Local Open Scope list_scope.

(** ** Python strings *)

Module PyStr.

(** The code point of a character. *)
Definition ord (c : ascii) : nat := nat_of_ascii c.

(** [str.isspace] on one code point below 256, which is also what the
    pattern [\s] of [re] matches on [str]: TAB..CR, FS..US, the space,
    NEL and the no-break space. *)
Definition isspace (c : ascii) : bool :=
  let n := ord c in
  (((9 <=? n) && (n <=? 13)) || ((28 <=? n) && (n <=? 32))
   || (n =? 133) || (n =? 160))%nat.

(** [str.lower] on one code point below 256: [A-Z] and the Latin-1
    capitals (all of U+00C0..U+00DE but the multiplication sign).  Code
    points beyond 255, some of which [str.lower] turns into two
    characters, are outside the strings of this file. *)
Definition lower_char (c : ascii) : ascii :=
  let n := ord c in
  if (((65 <=? n) && (n <=? 90))
      || ((192 <=? n) && (n <=? 222) && negb (n =? 215)))%nat
  then ascii_of_nat (n + 32) else c.

Definition mem (c : ascii) (chars : list ascii) : bool :=
  existsb (Ascii.eqb c) chars.

Fixpoint lstrip_chars (chars s : list ascii) : list ascii :=
  match s with
  | [] => []
  | c :: r => if mem c chars then lstrip_chars chars r else s
  end.

Definition rstrip_chars (chars s : list ascii) : list ascii :=
  rev (lstrip_chars chars (rev s)).

(** [s.strip(chars)]: drop the leading and the trailing characters that
    belong to [chars]. *)
Definition strip_chars (chars s : list ascii) : list ascii :=
  rstrip_chars chars (lstrip_chars chars s).

(** [re.sub("\s+", " ", s)]: every maximal run of whitespace becomes one
    space.  [in_run] says that the previous character was whitespace. *)
Fixpoint collapse_from (in_run : bool) (s : list ascii) : list ascii :=
  match s with
  | [] => []
  | c :: r =>
      if isspace c
      then (if in_run then collapse_from true r
            else " "%char :: collapse_from true r)
      else c :: collapse_from false r
  end.

Definition sub_spaces (s : list ascii) : list ascii := collapse_from false s.

Definition lower (s : string) : string :=
  string_of_list_ascii (map lower_char (list_ascii_of_string s)).

Definition strip (chars s : string) : string :=
  string_of_list_ascii
    (strip_chars (list_ascii_of_string chars) (list_ascii_of_string s)).

(** [s.replace(c, e)] for a one-character [c] and the empty string [e]. *)
Definition remove_char (c : ascii) (s : string) : string :=
  string_of_list_ascii
    (filter (fun x => negb (Ascii.eqb x c)) (list_ascii_of_string s)).

(** [s.replace(c, by_)] for a one-character [c]. *)
Definition replace_char (c : ascii) (by_ : string) (s : string) : string :=
  string_of_list_ascii
    (flat_map (fun x => if Ascii.eqb x c then list_ascii_of_string by_ else [x])
              (list_ascii_of_string s)).

(** [s.split(", ")]: cut at every occurrence of comma-space, scanning
    from the left; [cur] is the piece being read, reversed. *)
Fixpoint split_comma_space (cur : list ascii) (s : list ascii)
  : list string :=
  match s with
  | [] => [string_of_list_ascii (rev cur)]
  | c :: r =>
      match r with
      | c' :: r' =>
          if Ascii.eqb c ","%char && Ascii.eqb c' " "%char
          then string_of_list_ascii (rev cur) :: split_comma_space [] r'
          else split_comma_space (c :: cur) r
      | [] => split_comma_space (c :: cur) r
      end
  end.

End PyStr.

(** ** Exceptions and the two monads of the embedding *)

(** The exception classes the module can raise.  [OtherError] stands for
    the classes of the libraries behind the oracles (a connection error,
    a JSON decoding error, a driver error), by class name. *)
Inductive exn : Type :=
| AttributeError
| KeyError
| TypeError
| IndexError
| NameError
| UnboundLocalError
| NoSuchElementException
| OtherError (class_name : string).

Definition exn_name (e : exn) : string :=
  match e with
  | AttributeError => "AttributeError"
  | KeyError => "KeyError"
  | TypeError => "TypeError"
  | IndexError => "IndexError"
  | NameError => "NameError"
  | UnboundLocalError => "UnboundLocalError"
  | NoSuchElementException => "NoSuchElementException"
  | OtherError n => n
  end.

(** The outcome of a Python call: a value, or an exception that reaches
    the caller. *)
Inductive result (A : Type) : Type :=
| Return (a : A)
| Raise (e : exn).
Arguments Return {A} a.
Arguments Raise {A} e.

(** What a call does to the outside, in the order it does it. *)
Inductive event : Type :=
| HttpGet (url : string)
| Stdout (line : string)
| StdoutTraceback (e : exn)
| DimensionsQuery (username password query : string)
| BrowserStart (executable_path : string)
| BrowserGet (url : string)
| BrowserSendKeys (text : string)
| BrowserSendReturn
| BrowserQuit.

(** An effectful call: the events it emitted and its outcome. *)
Definition io (A : Type) : Type := (list event * result A)%type.

Class Monad (M : Type -> Type) : Type := {
  ret : forall {A}, A -> M A;
  bind : forall {A B}, M A -> (A -> M B) -> M B
}.

#[export] Instance result_monad : Monad result := {
  ret := fun A a => Return a;
  bind := fun A B m k =>
    match m with
    | Return a => k a
    | Raise e => Raise e
    end
}.

#[export] Instance io_monad : Monad io := {
  ret := fun A a => ([], Return a);
  bind := fun A B m k =>
    match m with
    | (t, Return a) => let (t', r) := k a in (t ++ t', r)
    | (t, Raise e) => (t, Raise e)
    end
}.

Notation "x <- m ;; k" := (bind m (fun x => k))
  (at level 61, m at next level, right associativity).
Notation "m ;;; k" := (bind m (fun _ => k))
  (at level 61, right associativity).

(** A pure computation inside an effectful one. *)
Definition lift {A} (r : result A) : io A := ([], r).

Definition emit (e : event) : io unit := ([e], Return tt).

Definition raise {A} (e : exn) : io A := ([], Raise e).

(** [try: body  except: handler] with a bare [except]. *)
Definition try_except {A} (body : io A) (handler : exn -> io A) : io A :=
  match body with
  | (t, Return a) => (t, Return a)
  | (t, Raise e) => let (t', r) := handler e in (t ++ t', r)
  end.

(** ** Python values *)

(** The values that dictionaries and JSON payloads hold.  Floating-point
    numbers are left out: no field the module reads is one. *)
#[warnings="-register-all"]
Inductive pyval : Type :=
| PNone
| PBool (b : bool)
| PInt (z : Z)
| PStr (s : string)
| PList (l : list pyval)
| PDict (d : list (string * pyval)).

Module Py.

Definition of_option (o : option string) : pyval :=
  match o with
  | Some s => PStr s
  | None => PNone
  end.

(** [str.format] of a value that is a string or [None]. *)
Definition format_arg (o : option string) : string :=
  match o with
  | Some s => s
  | None => "None"
  end.

(** [o == s] for [o] a string or [None]. *)
Definition opt_eqb (o : option string) (s : string) : bool :=
  match o with
  | Some x => String.eqb x s
  | None => false
  end.

(** Truth value of an object, as [if x:] takes it. *)
Definition truthy (v : pyval) : bool :=
  match v with
  | PNone => false
  | PBool b => b
  | PInt z => negb (Z.eqb z 0)
  | PStr s => negb (String.eqb s EmptyString)
  | PList l => negb (Nat.eqb (List.length l) 0)
  | PDict d => negb (Nat.eqb (List.length d) 0)
  end.

(** [len(x)]. *)
Definition len (v : pyval) : result nat :=
  match v with
  | PStr s => Return (String.length s)
  | PList l => Return (List.length l)
  | PDict d => Return (List.length d)
  | _ => Raise TypeError
  end.

(** Dictionaries keep their keys in insertion order. *)
Fixpoint dict_get {V} (d : list (string * V)) (k : string) : option V :=
  match d with
  | [] => None
  | (k', v) :: r => if String.eqb k k' then Some v else dict_get r k
  end.

(** [d[k] = v]: an existing key keeps its place. *)
Fixpoint dict_set {V} (d : list (string * V)) (k : string) (v : V)
  : list (string * V) :=
  match d with
  | [] => [(k, v)]
  | (k', v') :: r =>
      if String.eqb k k' then (k', v) :: r else (k', v') :: dict_set r k v
  end.

(** [d[k]] on a dictionary. *)
Definition dict_getitem {V} (d : list (string * V)) (k : string)
  : result V :=
  match dict_get d k with
  | Some v => Return v
  | None => Raise KeyError
  end.

(** [x[k]] for a string [k]. *)
Definition getitem_str (v : pyval) (k : string) : result pyval :=
  match v with
  | PDict d => dict_getitem d k
  | _ => Raise TypeError
  end.

(** [x[0]]. *)
Definition getitem_0 (v : pyval) : result pyval :=
  match v with
  | PList (x :: _) => Return x
  | PList [] => Raise IndexError
  | PStr (String c _) => Return (PStr (String c EmptyString))
  | PStr EmptyString => Raise IndexError
  | PDict _ => Raise KeyError
  | _ => Raise TypeError
  end.

(** [x.keys()]. *)
Definition keys (v : pyval) : result (list string) :=
  match v with
  | PDict d => Return (map fst d)
  | _ => Raise AttributeError
  end.

Definition int_of (v : pyval) : option Z :=
  match v with
  | PBool b => Some (if b then 1 else 0)%Z
  | PInt z => Some z
  | _ => None
  end.

(** [a + b]. *)
Definition add (a b : pyval) : result pyval :=
  match a, b with
  | PList x, PList y => Return (PList (x ++ y))
  | PStr x, PStr y => Return (PStr (x ++ y))
  | _, _ =>
      match int_of a, int_of b with
      | Some x, Some y => Return (PInt (x + y))
      | _, _ => Raise TypeError
      end
  end.

(** [iter(x)], run to its end. *)
Definition iterate (v : pyval) : result (list pyval) :=
  match v with
  | PList l => Return l
  | PStr s => Return (map (fun c => PStr (String c EmptyString)) (list_ascii_of_string s))
  | PDict d => Return (map (fun kv => PStr (fst kv)) d)
  | _ => Raise TypeError
  end.

Definition hashable (v : pyval) : bool :=
  match v with
  | PList _ | PDict _ => false
  | _ => true
  end.

(** [a == b] on hashable values ([True == 1] and [False == 0]). *)
Definition eqb (a b : pyval) : bool :=
  match a, b with
  | PNone, PNone => true
  | PStr x, PStr y => String.eqb x y
  | _, _ =>
      match int_of a, int_of b with
      | Some x, Some y => Z.eqb x y
      | _, _ => false
      end
  end.

(** A set is kept as the list of its members, first insertion first. *)
Definition set_add {A} (eq : A -> A -> bool) (acc : list A) (x : A)
  : list A :=
  if existsb (eq x) acc then acc else acc ++ [x].

Definition set_of_list {A} (eq : A -> A -> bool) (l : list A) : list A :=
  fold_left (set_add eq) l [].

(** [a & b]. *)
Definition set_inter {A} (eq : A -> A -> bool) (a b : list A) : list A :=
  filter (fun x => existsb (eq x) b) a.

(** [set(x)]. *)
Definition set (v : pyval) : result (list pyval) :=
  l <- iterate v ;;
  if forallb hashable l then Return (set_of_list eqb l) else Raise TypeError.

(** [{k: f(k) for k in ks}], built on top of [acc]. *)
Fixpoint dict_comp {V} (f : string -> result V) (ks : list string)
    (acc : list (string * V)) : result (list (string * V)) :=
  match ks with
  | [] => Return acc
  | k :: r => v <- f k ;; dict_comp f r (dict_set acc k v)
  end.

End Py.

(** The order in which a set hands out its members is the interpreter's
    business: some rearrangement of them. *)
Class HashOrder : Type := {
  set_order : forall {A : Type}, list A -> list A;
  set_order_perm : forall (A : Type) (l : list A), Permutation (set_order l) l
}.

(** ** Parsed documents *)

(** A parsed XML or HTML document, the way BeautifulSoup and the browser
    hold it: elements with their attributes as written, and text. *)
#[warnings="-register-all"]
Inductive node : Type :=
| Tag (name : string) (attrs : list (string * string)) (children : list node)
| NavigableString (s : string).

Module Soup.

Definition is_tag (n : node) : bool :=
  match n with
  | Tag _ _ _ => true
  | NavigableString _ => false
  end.

(** Everything below [n], in document order. *)
Fixpoint descendants (n : node) : list node :=
  match n with
  | Tag _ _ cs => flat_map (fun c => c :: descendants c) cs
  | NavigableString _ => []
  end.

(** [n.text], that is [n.get_text()]: all the text below [n]. *)
Fixpoint text (n : node) : string :=
  match n with
  | Tag _ _ cs => String.concat EmptyString (map text cs)
  | NavigableString s => s
  end.

(** The whitespace-separated values of a [class] attribute. *)
Fixpoint tokens_from (cur s : list ascii) : list string :=
  match s with
  | [] =>
      match cur with
      | [] => []
      | _ => [string_of_list_ascii (rev cur)]
      end
  | c :: r =>
      if PyStr.isspace c
      then match cur with
           | [] => tokens_from [] r
           | _ => string_of_list_ascii (rev cur) :: tokens_from [] r
           end
      else tokens_from (c :: cur) r
  end.

Definition tokens (s : string) : list string :=
  tokens_from [] (list_ascii_of_string s).

Definition get_attr (n : node) (key : string) : option string :=
  match n with
  | Tag _ attrs _ => Py.dict_get attrs key
  | NavigableString _ => None
  end.

(** Does the attribute [key] of [n] match the string [target]?  The
    parser keeps [class] as the list of its values: one of them, or all
    of them joined by single spaces, has to be [target]. *)
Definition attr_matches (n : node) (kv : string * string) : bool :=
  let (key, target) := kv in
  match get_attr n key with
  | None => false
  | Some raw =>
      if String.eqb key "class"
      then existsb (String.eqb target) (tokens raw)
           || String.eqb (String.concat " " (tokens raw)) target
      else String.eqb raw target
  end.

Definition name_matches (n : node) (name : option string) : bool :=
  match n, name with
  | Tag nm _ _, Some wanted => String.eqb nm wanted
  | Tag _ _ _, None => true
  | NavigableString _, _ => false
  end.

(** [root.find_all(name, attrs)]. *)
Definition find_all (root : node) (name : option string)
    (attrs : list (string * string)) : list node :=
  filter (fun n => name_matches n name && forallb (attr_matches n) attrs)
         (descendants root).

(** [root.find(name, attrs)]: the first hit, or [None]. *)
Definition find (root : node) (name : option string)
    (attrs : list (string * string)) : option node :=
  hd_error (find_all root name attrs).

(** [root.findChildren()]: every element below [root]. *)
Definition findChildren (root : node) : list node := find_all root None [].

End Soup.

(** The browser driver's searches over the page it shows. *)
Module Selenium.

(** [find_element_by_class_name(c)]. *)
Definition find_element_by_class_name (page : node) (c : string)
  : result node :=
  match filter (fun n => Soup.is_tag n
                         && match Soup.get_attr n "class" with
                            | Some raw => existsb (String.eqb c) (Soup.tokens raw)
                            | None => false
                            end)
               (Soup.descendants page) with
  | n :: _ => Return n
  | [] => Raise NoSuchElementException
  end.

(** [find_element_by_xpath("//*[@class='v']")]. *)
Definition find_element_by_class_attribute (page : node) (v : string)
  : result node :=
  match filter (fun n => Soup.is_tag n
                         && match Soup.get_attr n "class" with
                            | Some raw => String.eqb raw v
                            | None => false
                            end)
               (Soup.descendants page) with
  | n :: _ => Return n
  | [] => Raise NoSuchElementException
  end.

Definition get_attribute (n : node) (key : string) : option string :=
  Soup.get_attr n key.

End Selenium.

(** ** The outside world *)

Record world : Type := {
  (** [urllib.parse.quote] and [urllib.parse.quote_plus] *)
  urllib_quote : string -> string;
  urllib_quote_plus : string -> string;
  (** [requests.get(url).text] *)
  requests_get_text : string -> result string;
  (** [BeautifulSoup(text, "html.parser")] *)
  html_parser : string -> node;
  (** [json.loads] *)
  json_loads : string -> result pyval;
  (** [CONFIG["DEFAULT"][key]], as [configparser] answers the read from
      [rc.cfg]: the value after interpolation, a [KeyError] for a key
      that is not there, or the error of the interpolation *)
  config_default : string -> result string;
  (** [execute_query] of a Dimensions client with these credentials *)
  dimensions_execute_query : string -> string -> string -> result pyval;
  (** [webdriver.Chrome(executable_path=...)] *)
  chrome_start : string -> result unit;
  (** the page the browser shows after [browser.get(url)] *)
  browser_page : string -> result node;
  (** [browser.current_url] once the text and RETURN went into the
      search field *)
  browser_url_after_search : string -> string
}.

(** ** The module, function by function *)

(** [requests.get(url).text]: the request is issued, then answered. *)
Definition http_get_text (w : world) (url : string) : io string :=
  emit (HttpGet url) ;;; lift (requests_get_text w url).

(** [CONFIG["DEFAULT"][key]] *)
Definition config_get (w : world) (key : string) : io string :=
  lift (config_default w key).

(** *** Utility functions *)

Definition get_xml_node_value (root : node) (name : string) : option string :=
  match Soup.find root (Some name) [] with
  | Some n => Some (Soup.text n)
  | None => None
  end.

(** The characters [clean_title] strips: space, double quote, apostrophe,
    question mark, exclamation mark, full stop, comma. *)
Definition title_strip_chars : list ascii :=
  [" "; "034"; "'"; "?"; "!"; "."; ","]%char.

(** [clean_title] on a string. *)
Definition clean_title_str (title : string) : string :=
  string_of_list_ascii
    (map PyStr.lower_char
       (PyStr.sub_spaces
          (PyStr.strip_chars title_strip_chars (list_ascii_of_string title)))).

(** [clean_title] on what the callers pass: a string or [None], and
    [None] has no [strip]. *)
Definition clean_title (title : option string) : result string :=
  match title with
  | Some s => Return (clean_title_str s)
  | None => Raise AttributeError
  end.

Definition title_match (title0 title1 : option string) : result bool :=
  c0 <- clean_title title0 ;;
  c1 <- clean_title title1 ;;
  Return (String.eqb c0 c1).

(** *** EuropePMC *)

Definition EUROPEPMC_API_URL : string :=
  "https://www.ebi.ac.uk/europepmc/webservices/rest/search?query=".

Definition europepmc_get_api_url (w : world) (title : string) : string :=
  EUROPEPMC_API_URL ++ urllib_quote w title.

(** The body of the [if title_match(...)] of [europepmc_title_search]. *)
Definition europepmc_fill (r : node) (meta : list (string * pyval))
  : result (list (string * pyval)) :=
  let meta := Py.dict_set meta "doi" (Py.of_option (get_xml_node_value r "doi")) in
  let pmcid := get_xml_node_value r "pmcid" in
  let meta := Py.dict_set meta "pmcid" (Py.of_option pmcid) in
  let meta := Py.dict_set meta "journal"
                (Py.of_option (get_xml_node_value r "journaltitle")) in
  authors <- match get_xml_node_value r "authorstring" with
             | Some s => Return (PyStr.split_comma_space [] (list_ascii_of_string s))
             | None => Raise AttributeError
             end ;;
  let meta := Py.dict_set meta "authors" (PList (map PStr authors)) in
  if Py.opt_eqb (get_xml_node_value r "haspdf") "Y"
  then Return (Py.dict_set meta "pdf"
                 (PStr ("http://europepmc.org/articles/" ++ Py.format_arg pmcid
                        ++ "?pdf=render")))
  else Return meta.

(** The [for result in result_list] loop. *)
Fixpoint europepmc_loop (title : string) (result_list : list node)
    (meta : list (string * pyval)) : result (list (string * pyval)) :=
  match result_list with
  | [] => Return meta
  | r :: rest =>
      let result_title := get_xml_node_value r "title" in
      m <- title_match (Some title) result_title ;;
      if m : bool
      then meta' <- europepmc_fill r meta ;; europepmc_loop title rest meta'
      else europepmc_loop title rest meta
  end.

Definition europepmc_title_search (w : world) (title : string)
  : io (list (string * pyval)) :=
  let url := europepmc_get_api_url w title in
  response <- http_get_text w url ;;
  let soup := html_parser w response in
  let result_list := Soup.find_all soup (Some "result") [] in
  lift (europepmc_loop title result_list []).

(** *** OpenAIRE *)

Definition OPENAIRE_API_URL : string :=
  "http://api.openaire.eu/search/publications?title=".

Definition openaire_get_api_url (w : world) (title : string) : string :=
  OPENAIRE_API_URL ++ urllib_quote w title.

(** The body of the [if title_match(...)], before the [break]. *)
Definition openaire_fill (r : node) (meta : list (string * pyval))
  : list (string * pyval) :=
  let meta := Py.dict_set meta "url" (Py.of_option (get_xml_node_value r "url")) in
  let meta := Py.dict_set meta "authors"
                (PList (map (fun a => PStr (Soup.text a))
                            (Soup.find_all r (Some "creator") []))) in
  Py.dict_set meta "open"
    (PBool (0 <? List.length
                   (Soup.find_all r (Some "bestaccessright") [("classid", "OPEN")]))%nat).

Fixpoint openaire_loop (title : string) (result_list : list node)
    (meta : list (string * pyval)) : result (list (string * pyval)) :=
  match result_list with
  | [] => Return meta
  | r :: rest =>
      let result_title := get_xml_node_value r "title" in
      m <- title_match (Some title) result_title ;;
      if m : bool
      then Return (openaire_fill r meta)
      else openaire_loop title rest meta
  end.

Definition openaire_title_search (w : world) (title : string)
  : io (list (string * pyval)) :=
  let url := openaire_get_api_url w title in
  response <- http_get_text w url ;;
  let soup := html_parser w response in
  lift (openaire_loop title (Soup.find_all soup (Some "oaf:result") []) []).

(** *** RePEc *)

Definition REPEC_CGI_URL : string := "https://ideas.repec.org/cgi-bin/htsearch?q=".

(** [REPEC_API_URL.format(a, b)] *)
Definition REPEC_API_URL_format (a b : string) : string :=
  "https://api.repec.org/call.cgi?code=" ++ a ++ "&getref=" ++ b.

Definition repec_get_cgi_url (w : world) (title : string) : string :=
  let enc_title :=
    urllib_quote_plus w
      (PyStr.remove_char ":" (PyStr.remove_char ")" (PyStr.remove_char "(" title))) in
  REPEC_CGI_URL ++ enc_title.

Definition repec_get_api_url (handle token : string) : string :=
  REPEC_API_URL_format token handle.

Definition repec_get_handle (w : world) (title : string) : io (option string) :=
  let url := repec_get_cgi_url w title in
  response <- http_get_text w url ;;
  let soup := html_parser w response in
  let ol := Soup.find soup (Some "ol") [("class", "list-group")] in
  results <- match ol with
             | Some o => ret (Soup.findChildren o)
             | None => raise AttributeError
             end ;;
  match results with
  | li :: _ =>
      match Soup.find li (Some "i") [] with
      | Some i => ret (Some (Soup.text i))
      | None => raise AttributeError
      end
  | [] => ret None
  end.

Definition repec_get_meta (w : world) (token handle : string) : io pyval :=
  try_except
    (let url := repec_get_api_url token handle in
     response <- http_get_text w url ;;
     meta <- lift (json_loads w response) ;;
     ret meta)
    (fun e =>
       emit (StdoutTraceback e) ;;;
       emit (Stdout ("ERROR: " ++ handle)) ;;;
       ret PNone).

(** *** Semantic Scholar and Unpaywall *)

Definition SEMANTIC_API_URL : string := "http://api.semanticscholar.org/v1/paper/".

Definition semantic_get_api_url (identifier : string) : string :=
  SEMANTIC_API_URL ++ identifier.

Definition semantic_publication_lookup (w : world) (identifier : string)
  : io pyval :=
  let url := semantic_get_api_url identifier in
  meta <- http_get_text w url ;;
  lift (json_loads w meta).

Definition unpaywall_get_api_url (doi email : string) : string :=
  "https://api.unpaywall.org/v2/" ++ doi ++ "?email=" ++ email.

Definition unpaywall_publication_lookup (w : world) (doi email : string)
  : io pyval :=
  let url := unpaywall_get_api_url doi email in
  meta <- http_get_text w url ;;
  lift (json_loads w meta).

(** *** Dimensions *)

(** The client object that [connect_ds_api] configures. *)
Record dimensions_client : Type := {
  max_in_items : Z;
  max_return : Z;
  max_overall_returns : Z;
  username : string;
  password : string
}.

Definition connect_ds_api (user pass : string) : dimensions_client :=
  {| max_in_items := 100%Z;
     max_return := 1000%Z;
     max_overall_returns := 50000%Z;
     username := user;
     password := pass |}.

(** [api_client.execute_query(query_string_IN=query)] *)
Definition execute_query (w : world) (api_client : dimensions_client)
    (query : string) : io pyval :=
  emit (DimensionsQuery (username api_client) (password api_client) query) ;;;
  lift (dimensions_execute_query w (username api_client) (password api_client) query).

Definition double_quote : string := String "034" EmptyString.
Definition backslash : string := String "092" EmptyString.

Definition search_title (w : world) (title : string)
    (api_client : dimensions_client) : io pyval :=
  let title := PyStr.replace_char "034" (backslash ++ double_quote) title in
  let query :=
    ("search publications in title_only for " ++ double_quote ++ backslash
     ++ double_quote ++ title ++ backslash ++ double_quote ++ double_quote
     ++ " return publications[all]")%string in
  dimensions_return <- execute_query w api_client query ;;
  try_except
    (title_return <- lift (Py.getitem_str dimensions_return "publications") ;;
     n <- lift (Py.len title_return) ;;
     if (0 <? n)%nat then ret title_return else ret PNone)
    (fun _ => ret PNone).

Definition allowed_raw_keys : list string :=
  ["authors"; "doi"; "linkout"; "concepts"; "terms"; "journal"].

Definition allowed_final_keys : list string :=
  ["authors"; "doi"; "linkout"; "keywords"; "journal_title"].

Definition format_dimensions `{HashOrder} (dimensions_md : pyval)
  : result (list (string * pyval)) :=
  ks <- Py.keys dimensions_md ;;
  let filt_keys :=
    set_order (Py.set_inter String.eqb (Py.set_of_list String.eqb ks)
                 (Py.set_of_list String.eqb allowed_raw_keys)) in
  pubs_dict <- Py.dict_comp (Py.getitem_str dimensions_md) filt_keys [] ;;
  terms <- Py.dict_getitem pubs_dict "terms" ;;
  concepts <- Py.dict_getitem pubs_dict "concepts" ;;
  both <- Py.add terms concepts ;;
  keywords <- Py.set both ;;
  let pubs_dict := Py.dict_set pubs_dict "keywords" (PList (set_order keywords)) in
  journal <- Py.dict_getitem pubs_dict "journal" ;;
  journal_title <- Py.getitem_str journal "title" ;;
  let pubs_dict := Py.dict_set pubs_dict "journal_title" journal_title in
  let final_keys :=
    (set_order (Py.set_inter String.eqb (Py.set_of_list String.eqb filt_keys)
                  (Py.set_of_list String.eqb allowed_final_keys))
     ++ ["keywords"; "journal_title"])%list in
  Py.dict_comp (Py.dict_getitem pubs_dict) final_keys [].

Definition dimensions_run_exact_string_search (w : world) (string_ : string)
    (api_client : dimensions_client) : io pyval :=
  let search_string :=
    ("search publications in full_data for " ++ double_quote ++ backslash
     ++ double_quote ++ string_ ++ backslash ++ double_quote ++ double_quote
     ++ " return publications[doi+title+journal+author_affiliations]")%string in
  execute_query w api_client search_string.

Definition dimensions_from_title `{HashOrder} (w : world) (title : string)
    (api_client : dimensions_client) : io pyval :=
  dimensions_md_all <- search_title w title api_client ;;
  if Py.truthy dimensions_md_all
  then
    dimensions_md <- lift (Py.getitem_0 dimensions_md_all) ;;
    dimensions_pubs_dict <- lift (format_dimensions dimensions_md) ;;
    ret (PDict (Py.dict_set dimensions_pubs_dict "title" (PStr title)))
  else ret PNone.

Definition connect_dimensions_api (w : world) : io dimensions_client :=
  user <- config_get w "email" ;;
  pass <- config_get w "dimensions_password" ;;
  ret (connect_ds_api user pass).

Definition dimensions_title_search `{HashOrder} (w : world) (title : string)
    (api_client : dimensions_client) : io pyval :=
  dimensions_from_title w title api_client.

Definition get_dimensions_md `{HashOrder} (w : world) (title : string) : io pyval :=
  api_cnxn <- connect_dimensions_api w ;;
  dimensions_title_search w title api_cnxn.

(** *** SSRN *)

Definition search_ssrn (w : world) (title : string) : io (option string) :=
  let ssrn_homepage := "https://www.ssrn.com/index.cfm/en/" in
  chrome_path <- config_get w "chrome_exe_path" ;;
  emit (BrowserStart chrome_path) ;;;
  lift (chrome_start w chrome_path) ;;;
  emit (BrowserGet ssrn_homepage) ;;;
  page <- lift (browser_page w ssrn_homepage) ;;
  lift (Selenium.find_element_by_class_name page "form-control") ;;;
  emit (BrowserSendKeys title) ;;;
  emit BrowserSendReturn ;;;
  let search_url := browser_url_after_search w title in
  emit (BrowserGet search_url) ;;;
  page <- lift (browser_page w search_url) ;;
  result_element <-
    lift (Selenium.find_element_by_class_attribute page "title optClickTitle") ;;
  let ssrn_link := Selenium.get_attribute result_element "href" in
  emit BrowserQuit ;;;
  ret ssrn_link.

(** *** Consolidated functions *)

(** What a name is bound to at module level, for the calls the two
    dispatchers make: a function of one string, or something else. *)
Inductive binding : Type :=
| Function1 (f : string -> io pyval)
| OtherBinding.

(** Every name the module binds, in the order of the file: its imports,
    its constants, its functions. *)
Definition module_globals `{HashOrder} (w : world) : list (string * binding) :=
  [ ("BeautifulSoup", OtherBinding); ("OrderedDict", OtherBinding);
    ("webdriver", OtherBinding); ("By", OtherBinding); ("Keys", OtherBinding);
    ("EC", OtherBinding); ("WebDriverWait", OtherBinding);
    ("configparser", OtherBinding); ("dscli", OtherBinding);
    ("json", OtherBinding); ("re", OtherBinding); ("requests", OtherBinding);
    ("sys", OtherBinding); ("time", OtherBinding); ("traceback", OtherBinding);
    ("urllib", OtherBinding);
    ("CONFIG_FILE", OtherBinding); ("CONFIG", OtherBinding);
    ("get_xml_node_value", OtherBinding);
    ("clean_title", OtherBinding);
    ("title_match", OtherBinding);
    ("EUROPEPMC_API_URL", OtherBinding);
    ("europepmc_get_api_url",
      Function1 (fun t => ret (PStr (europepmc_get_api_url w t))));
    ("europepmc_title_search",
      Function1 (fun t => m <- europepmc_title_search w t ;; ret (PDict m)));
    ("OPENAIRE_API_URL", OtherBinding);
    ("openaire_get_api_url",
      Function1 (fun t => ret (PStr (openaire_get_api_url w t))));
    ("openaire_title_search",
      Function1 (fun t => m <- openaire_title_search w t ;; ret (PDict m)));
    ("REPEC_CGI_URL", OtherBinding); ("REPEC_API_URL", OtherBinding);
    ("repec_get_cgi_url",
      Function1 (fun t => ret (PStr (repec_get_cgi_url w t))));
    ("repec_get_api_url", OtherBinding);
    ("repec_get_handle",
      Function1 (fun t => h <- repec_get_handle w t ;; ret (Py.of_option h)));
    ("repec_get_meta", OtherBinding);
    ("SEMANTIC_API_URL", OtherBinding);
    ("semantic_get_api_url",
      Function1 (fun i => ret (PStr (semantic_get_api_url i))));
    ("semantic_publication_lookup", Function1 (semantic_publication_lookup w));
    ("UNPAYWALL_API_URL", OtherBinding);
    ("unpaywall_get_api_url", OtherBinding);
    ("unpaywall_publication_lookup", OtherBinding);
    ("connect_ds_api", OtherBinding);
    ("search_title", OtherBinding);
    ("run_pub_id_search", OtherBinding);
    ("format_dimensions", OtherBinding);
    ("dimensions_run_exact_string_search", OtherBinding);
    ("dimensions_from_title", OtherBinding);
    ("connect_dimensions_api", OtherBinding);
    ("dimensions_title_search", OtherBinding);
    ("get_dimensions_md", Function1 (get_dimensions_md w));
    ("get_author", OtherBinding);
    ("get_soup", OtherBinding);
    ("get_ssrn_metadata", OtherBinding);
    ("ssrn_url_search", OtherBinding);
    ("search_ssrn",
      Function1 (fun t => l <- search_ssrn w t ;; ret (Py.of_option l)));
    ("get_ssrn_md", OtherBinding);
    ("full_text_search", OtherBinding);
    ("title_search", OtherBinding) ].

(** [name(arg)] for a global [name]: the name is looked up when the call
    runs, and a name the module never bound is a [NameError].  Bindings
    kept as [OtherBinding] are not called by the dispatchers. *)
Definition call_global `{HashOrder} (w : world) (name arg : string) : io pyval :=
  match Py.dict_get (module_globals w) name with
  | Some (Function1 f) => f arg
  | Some OtherBinding => raise TypeError
  | None => raise NameError
  end.

(** [return x] for a local [x] that may never have been assigned. *)
Definition return_local {A} (x : option A) : io A :=
  match x with
  | Some v => ret v
  | None => raise UnboundLocalError
  end.

Definition full_text_search (w : world) (search_term api_name : string)
  : io pyval :=
  ss_result <-
    (if String.eqb (PyStr.lower api_name) "dimensions"
     then
       api_client <- connect_dimensions_api w ;;
       stringsearch_result <-
         dimensions_run_exact_string_search w search_term api_client ;;
       if Py.truthy stringsearch_result
       then
         r <- lift (Py.getitem_str stringsearch_result "publications") ;;
         ret (Some r)
       else ret None
     else ret None) ;;
  return_local ss_result.

Definition title_search `{HashOrder} (w : world) (title api_name : string)
  : io pyval :=
  let unbound : option pyval := None in
  titlesearch_result <-
    (if String.eqb (PyStr.lower api_name) "dimensions"
     then r <- call_global w "get_dimensions_md" title ;; ret (Some r)
     else ret unbound) ;;
  titlesearch_result <-
    (if String.eqb (PyStr.lower api_name) "ssrn"
     then r <- call_global w "search_ssrn" title ;; ret (Some r)
     else ret titlesearch_result) ;;
  titlesearch_result <-
    (if String.eqb (PyStr.lower api_name) "europepmc"
     then r <- call_global w "get_epmc_page" title ;; ret (Some r)
     else ret titlesearch_result) ;;
  titlesearch_result <-
    (if String.eqb (PyStr.lower api_name) "openaire"
     then r <- call_global w "oa_lookup_pub_uris" title ;; ret (Some r)
     else ret titlesearch_result) ;;
  return_local titlesearch_result.

(** ** Concrete worlds and documents, to run the functions on *)

(** A set that hands out its members in insertion order, and one that
    hands them out backwards. *)
Definition insertion_order : HashOrder :=
  {| set_order := fun A l => l;
     set_order_perm := fun A l => Permutation_refl l |}.

Definition reverse_order : HashOrder :=
  {| set_order := fun A l => rev l;
     set_order_perm := fun A l => Permutation_sym (Permutation_rev l) |}.

(** A world whose every HTTP response parses to [soup], whose browser
    shows [page] at every address, and whose Dimensions client answers
    every query with [answer]. *)
Definition fixed_world (soup page : node) (answer : pyval) : world :=
  {| urllib_quote := fun s => s;
     urllib_quote_plus := fun s => s;
     requests_get_text := fun _ => Return "<response>";
     html_parser := fun _ => soup;
     json_loads := fun _ => Return (PDict []);
     config_default :=
       Py.dict_getitem
         [("email", "reader@example.org"); ("dimensions_password", "secret");
          ("chrome_exe_path", "/usr/bin/chromedriver"); ("repec_token", "TOKEN")];
     dimensions_execute_query := fun _ _ _ => Return answer;
     chrome_start := fun _ => Return tt;
     browser_page := fun _ => Return page;
     browser_url_after_search :=
       fun t => ("https://papers.ssrn.com/sol3/results.cfm?txtKey_Words=" ++ t)%string |}.

Definition element (name : string) (content : string) : node :=
  Tag name [] [NavigableString content].

Definition empty_document : node := Tag "[document]" [] [].

(** Does a string begin with whitespace? *)
Definition starts_with_space (s : list ascii) : bool :=
  match s with
  | c :: _ => PyStr.isspace c
  | [] => false
  end.

(** A title is tidy when, with the strip characters gone from both ends,
    it neither begins nor ends with whitespace (a tab, a line break). *)
Definition tidy_title (title : string) : bool :=
  let s := PyStr.strip_chars title_strip_chars (list_ascii_of_string title) in
  negb (starts_with_space s) && negb (starts_with_space (rev s)).

(** The first character of [s], if any, is outside [chars]. *)
Definition head_outside (chars s : list ascii) : Prop :=
  match s with
  | c :: _ => PyStr.mem c chars = false
  | [] => True
  end.

(** Is the string [k] one of [l]? *)
Definition memb (k : string) (l : list string) : bool :=
  existsb (String.eqb k) l.

(** The shape of a Dimensions publication record, for the fields that
    [format_dimensions] computes with: [terms] and [concepts], when the
    record has them, are lists of strings, and [journal] is an object. *)
Definition is_str_list (v : pyval) : Prop :=
  exists l, v = PList (map PStr l).

Definition dimensions_record (d : list (string * pyval)) : Prop :=
  (forall v, Py.dict_get d "terms" = Some v -> is_str_list v)
  /\ (forall v, Py.dict_get d "concepts" = Some v -> is_str_list v)
  /\ (forall v, Py.dict_get d "journal" = Some v -> exists j, v = PDict j).

(** The record lacks [terms], [concepts] or [journal], or its journal
    lacks [title]. *)
Definition missing_required (d : list (string * pyval)) : Prop :=
  Py.dict_get d "terms" = None
  \/ Py.dict_get d "concepts" = None
  \/ Py.dict_get d "journal" = None
  \/ (exists j, Py.dict_get d "journal" = Some (PDict j)
                /\ Py.dict_get j "title" = None).

(** *** Documents *)

Definition europepmc_entry (title doi pmcid journal authors haspdf : string)
  : node :=
  Tag "result" []
    [element "title" title; element "doi" doi; element "pmcid" pmcid;
     element "journaltitle" journal; element "authorstring" authors;
     element "haspdf" haspdf].

(** A EuropePMC answer with two entries for the queried title: the first
    has a PDF, the last has none. *)
Definition europepmc_two_matches : node :=
  Tag "[document]" []
    [Tag "resultlist" []
       [europepmc_entry "Deal or No Deal?" "10.1000/first" "PMC1"
          "Appetite" "Smith J, Doe A" "Y";
        europepmc_entry "Another paper" "10.1000/other" "PMC9"
          "Nature" "Roe R" "Y";
        europepmc_entry "deal  or no deal." "10.1000/second" "PMC2"
          "Food Policy" "Poe E" "N"]].

Definition openaire_entry (title url : string) (creators : list string)
    (access : list string) : node :=
  Tag "oaf:result" []
    ([element "title" title; element "url" url]
     ++ map (element "creator") creators
     ++ map (fun c => Tag "bestaccessright" [("classid", c)] []) access).

(** An OpenAIRE answer with two entries for the queried title. *)
Definition openaire_two_matches : node :=
  Tag "[document]" []
    [Tag "results" []
       [openaire_entry "Another paper" "http://example.org/0" ["Roe R"] ["OPEN"];
        openaire_entry "Deal or No Deal?" "http://example.org/1"
          ["Smith J"; "Doe A"] ["CLOSED"; "OPEN"];
        openaire_entry "deal or no deal" "http://example.org/2" ["Poe E"]
          ["RESTRICTED"]]].

(** Answers in which nothing corresponds to the queried title: entries
    under other titles, and an empty RePEc listing. *)
Definition no_match_document : node :=
  Tag "[document]" []
    [europepmc_entry "Another paper" "10.1000/other" "PMC9" "Nature" "Roe R" "Y";
     openaire_entry "Yet another paper" "http://example.org/0" ["Roe R"] ["OPEN"];
     Tag "ol" [("class", "list-group")] []].

(** The SSRN pages: a search field, and no result link. *)
Definition ssrn_page_without_results : node :=
  Tag "[document]" []
    [Tag "html" []
       [Tag "input" [("class", "form-control"); ("type", "text")] [];
        Tag "p" [] [NavigableString "No results found."]]].

(** A world in which no provider has anything for the queried title. *)
Definition world_without_match : world :=
  fixed_world no_match_document ssrn_page_without_results PNone.

(** A Dimensions record, and the same without its journal. *)
Definition example_record : list (string * pyval) :=
  [("id", PStr "pub.1"); ("terms", PList (map PStr ["a"; "b"]));
   ("doi", PStr "10.1000/first");
   ("concepts", PList (map PStr ["b"; "c"]));
   ("journal", PDict [("id", PStr "jour.1"); ("title", PStr "J")]);
   ("authors", PList [PDict [("last_name", PStr "Smith")]])].

Definition record_without_journal : list (string * pyval) :=
  [("id", PStr "pub.2"); ("terms", PList (map PStr ["a"; "b"]));
   ("concepts", PList (map PStr ["b"; "c"]))].

(** An entry that carries a title, which is not the queried one. *)
Definition other_title (title : string) (r : node) : Prop :=
  title_match (Some title) (get_xml_node_value r "title") = Return false.

(** ** The rest of the module *)

(** *** More of Python's strings and values *)

(** The characters that [str.strip()] removes when called without an
    argument: those for which [str.isspace] holds. *)
Definition whitespace_chars : list ascii :=
  map ascii_of_nat [9; 10; 11; 12; 13; 28; 29; 30; 31; 32; 133; 160].

(** [s.strip()] *)
Definition strip_whitespace (s : string) : string :=
  string_of_list_ascii
    (PyStr.strip_chars whitespace_chars (list_ascii_of_string s)).

(** [s.startswith(pat)] *)
Fixpoint starts_with (pat s : list ascii) : bool :=
  match pat, s with
  | [], _ => true
  | p :: ps, c :: cs => Ascii.eqb p c && starts_with ps cs
  | _ :: _, [] => false
  end.

(** [pat in s] for two strings. *)
Fixpoint str_contains (pat s : list ascii) : bool :=
  starts_with pat s
  || match s with
     | [] => false
     | _ :: r => str_contains pat r
     end.

(** [s.split(pat, 1)[1]] for a non-empty [pat]: what follows the first
    occurrence of [pat], and an [IndexError] when there is none. *)
Fixpoint after_first (pat s : list ascii) : result (list ascii) :=
  if starts_with pat s then Return (skipn (List.length pat) s)
  else match s with
       | [] => Raise IndexError
       | _ :: r => after_first pat r
       end.

(** [needle in x] for a string [needle]. *)
Definition py_contains (needle : string) (x : pyval) : result bool :=
  match x with
  | PStr s =>
      Return (str_contains (list_ascii_of_string needle) (list_ascii_of_string s))
  | PList l => Return (existsb (Py.eqb (PStr needle)) l)
  | PDict d => Return (existsb (fun kv => String.eqb needle (fst kv)) d)
  | _ => Raise TypeError
  end.

(** [x.split(pat, 1)[1]] *)
Definition py_after_first (pat : string) (x : pyval) : result string :=
  match x with
  | PStr s =>
      r <- after_first (list_ascii_of_string pat) (list_ascii_of_string s) ;;
      Return (string_of_list_ascii r)
  | _ => Raise AttributeError
  end.

(** [l[a:b]] for indices that are not negative. *)
Definition slice {A} (l : list A) (a b : nat) : list A :=
  firstn (b - a) (skipn a l).

(** [l[i]] *)
Definition item {A} (l : list A) (i : nat) : result A :=
  match nth_error l i with
  | Some x => Return x
  | None => Raise IndexError
  end.

(** [root.find_all([name, ...])]: the elements whose name is one of the
    list. *)
Definition find_all_names (root : node) (names : list string) : list node :=
  filter (fun n => match n with
                   | Tag nm _ _ => existsb (String.eqb nm) names
                   | NavigableString _ => false
                   end)
         (Soup.descendants root).

(** [len(e.contents)] *)
Definition contents_length (n : node) : nat :=
  match n with
  | Tag _ _ cs => List.length cs
  | NavigableString _ => 0
  end.

(** [tag[key]]: [None] is not subscriptable, and an element without the
    attribute raises [KeyError]. *)
Definition tag_getitem (tag : option node) (key : string) : result string :=
  match tag with
  | None => Raise TypeError
  | Some n => Py.dict_getitem (match n with
                               | Tag _ attrs _ => attrs
                               | NavigableString _ => []
                               end) key
  end.

(** *** Dimensions, by identifier *)

Definition run_pub_id_search (w : world) (dimensions_id : string)
    (api_client : dimensions_client) : io pyval :=
  let id_search_string :=
    ("search publications where id = " ++ double_quote ++ dimensions_id
     ++ double_quote ++ " return publications[all] limit 1")%string in
  id_response <- execute_query w api_client id_search_string ;;
  publications <- lift (Py.getitem_str id_response "publications") ;;
  lift (Py.getitem_0 publications).

(** *** SSRN pages *)

(** The [for i in nested_list] loop of [get_author]. *)
Fixpoint get_author_loop (nested_list : list (list node)) (auth_list : list pyval)
  : result (list pyval) :=
  match nested_list with
  | [] => Return auth_list
  | i :: rest =>
      auth <- item i 0 ;;
      affl <- item i 1 ;;
      let auth_dict := PDict [("author_name", PStr (Soup.text auth));
                              ("affl", PStr (Soup.text affl))] in
      get_author_loop rest (auth_list ++ [auth_dict])
  end.

(** The chunks of two that [get_author] cuts its list into. *)
Definition get_author_chunks (filtered_list : list node) : list (list node) :=
  let n := 2 in
  map (fun i => slice filtered_list (i * n) ((i + 1) * n))
      (seq 0 ((List.length filtered_list + n - 1) / n)).

Definition get_author (soup : node) : result (list pyval) :=
  match Soup.find soup None [("class", "authors authors-full-width")] with
  | None => Raise AttributeError
  | Some author_chunk =>
      let filtered_list :=
        filter (fun e => Nat.eqb (contents_length e) 1)
               (find_all_names author_chunk ["a"; "p"]) in
      get_author_loop (get_author_chunks filtered_list) []
  end.

Definition get_soup (w : world) (url : string) : io node :=
  response <- http_get_text w url ;;
  ret (html_parser w response).

Definition get_ssrn_metadata (w : world) (url : string) : io pyval :=
  soup <- get_soup w url ;;
  let pub_title := Soup.find soup (Some "meta") [("name", "citation_title")] in
  title <- lift (tag_getitem pub_title "content") ;;
  keywords_raw <-
    lift (tag_getitem (Soup.find soup (Some "meta") [("name", "citation_keywords")])
            "content") ;;
  let keywords_list_raw :=
    PyStr.split_comma_space [] (list_ascii_of_string keywords_raw) in
  let keywords := map strip_whitespace keywords_list_raw in
  doi <- lift (tag_getitem (Soup.find soup (Some "meta") [("name", "citation_doi")])
                 "content") ;;
  authors <- lift (get_author soup) ;;
  ret (PDict [("title", PStr title); ("keywords", PList (map PStr keywords));
              ("doi", PStr doi); ("authors", PList authors); ("url", PStr url)]).

(** [name] as an expression: the module-level binding of the name, or a
    [NameError]. *)
Definition resolve_global `{HashOrder} (w : world) (name : string) : io binding :=
  match Py.dict_get (module_globals w) name with
  | Some b => ret b
  | None => raise NameError
  end.

(** [f(arg)] for a binding that has been looked up. *)
Definition apply_binding (f : binding) (arg : pyval) : io pyval :=
  match f, arg with
  | Function1 g, PStr s => g s
  | _, _ => raise TypeError
  end.

Definition ssrn_url_search `{HashOrder} (w : world) (pub : pyval) : io pyval :=
  url <- lift (Py.getitem_str pub "url") ;;
  doi <- lift (Py.getitem_str pub "doi") ;;
  in_url <- lift (py_contains "ssrn" url) ;;
  if in_url : bool
  then
    get_metadata <- resolve_global w "get_metadata" ;;
    pub_dict <- apply_binding get_metadata url ;;
    ret PNone
  else
    in_doi <- lift (py_contains "ssrn" doi) ;;
    if in_doi : bool
    then
      doi <- lift (py_after_first "ssrn." doi) ;;
      let url := ("https://papers.ssrn.com/sol3/papers.cfm?abstract_id=" ++ doi)%string in
      get_metadata <- resolve_global w "get_metadata" ;;
      apply_binding get_metadata (PStr url)
    else ret (PList []).

(** *** Documents and answers to run these on *)

Definition ssrn_author_block (entries : list node) : node :=
  Tag "[document]" []
    [Tag "div" [("class", "authors authors-full-width")] entries].

Definition ssrn_two_authors : node :=
  ssrn_author_block
    [Tag "h2" [] [Tag "a" [("href", "/author=1")] [NavigableString "Jane Smith"]];
     Tag "p" [] [NavigableString "University of A"];
     Tag "h2" [] [Tag "a" [("href", "/author=2")] [NavigableString "Ann Doe"]];
     Tag "p" [] [NavigableString "Institute B"]].

Definition ssrn_article_page : node :=
  Tag "[document]" []
    [Tag "meta" [("name", "citation_title"); ("content", "Deal or No Deal")] [];
     Tag "meta" [("name", "citation_keywords");
                 ("content", "prices,  promotions , food")] [];
     Tag "meta" [("name", "citation_doi"); ("content", "10.2139/ssrn.123")] [];
     Tag "div" [("class", "authors authors-full-width")]
       [Tag "h2" [] [Tag "a" [] [NavigableString "Jane Smith"]];
        Tag "p" [] [NavigableString "University of A"]]].

(** A results page with a result link. *)
Definition ssrn_page_with_result : node :=
  Tag "[document]" []
    [Tag "html" []
       [Tag "input" [("class", "form-control"); ("type", "text")] [];
        Tag "a" [("class", "title optClickTitle");
                 ("href", "https://ssrn.com/abstract=123")]
          [NavigableString "Deal or No Deal"]]].

Definition dimensions_answer (publications : list pyval) : pyval :=
  PDict [("_stats", PDict []); ("publications", PList publications)].

(** A world without the credentials of Dimensions. *)
Definition world_without_credentials : world :=
  {| urllib_quote := fun s => s;
     urllib_quote_plus := fun s => s;
     requests_get_text := fun _ => Return "<response>";
     html_parser := fun _ => empty_document;
     json_loads := fun _ => Return (PDict []);
     config_default := Py.dict_getitem [("email", "reader@example.org")];
     dimensions_execute_query := fun _ _ _ => Return (dimensions_answer []);
     chrome_start := fun _ => Return tt;
     browser_page := fun _ => Return empty_document;
     browser_url_after_search := fun t => t |}.

(** A world whose network is down. *)
Definition offline_world : world :=
  {| urllib_quote := fun s => s;
     urllib_quote_plus := fun s => s;
     requests_get_text := fun _ => Raise (OtherError "ConnectionError");
     html_parser := fun _ => empty_document;
     json_loads := fun _ => Raise (OtherError "JSONDecodeError");
     config_default := fun _ => Raise KeyError;
     dimensions_execute_query := fun _ _ _ => Raise (OtherError "ConnectionError");
     chrome_start := fun _ => Raise (OtherError "WebDriverException");
     browser_page := fun _ => Raise (OtherError "WebDriverException");
     browser_url_after_search := fun t => t |}.

(** *** Predicates for the statements *)


(** All the characters of [s] are among those that [clean_title] strips. *)
Definition only_strip_chars (s : string) : bool :=
  forallb (fun c => PyStr.mem c title_strip_chars) (list_ascii_of_string s).

(** Neither the first nor the last character of [s] is whitespace. *)
Definition trimmed (s : string) : Prop :=
  head_outside whitespace_chars (list_ascii_of_string s)
  /\ head_outside whitespace_chars (rev (list_ascii_of_string s)).

(** The characters that [repec_get_cgi_url] lets through. *)
Definition repec_keeps (c : ascii) : bool :=
  negb (Ascii.eqb c "(") && negb (Ascii.eqb c ")") && negb (Ascii.eqb c ":").

(** The address of the PDF that [europepmc_title_search] builds for an
    entry. *)
Definition europepmc_pdf_url (r : node) : string :=
  "http://europepmc.org/articles/" ++ Py.format_arg (get_xml_node_value r "pmcid")
  ++ "?pdf=render".

(** The entry is under the queried title. *)
Definition same_title (title : string) (r : node) : Prop :=
  title_match (Some title) (get_xml_node_value r "title") = Return true.

(** The authors and affiliations of [get_author], two elements at a
    time. *)
Fixpoint author_pairs (l : list node) : list pyval :=
  match l with
  | auth :: affl :: r =>
      PDict [("author_name", PStr (Soup.text auth));
             ("affl", PStr (Soup.text affl))] :: author_pairs r
  | _ => []
  end.

(** [d[k] = v] on the keys of [d]: a new key goes to the end. *)
Definition add_key (ks : list string) (k : string) : list string :=
  if memb k ks then ks else (ks ++ [k])%list.

(** The keys that a record of [europepmc_title_search] or of
    [openaire_title_search] can have, in order. *)
Definition europepmc_keys (ks : list string) : Prop :=
  ks = []
  \/ ks = ["doi"; "pmcid"; "journal"; "authors"]
  \/ ks = ["doi"; "pmcid"; "journal"; "authors"; "pdf"].

Definition openaire_keys (ks : list string) : Prop :=
  ks = [] \/ ks = ["url"; "authors"; "open"].

(** The queries that the Dimensions functions send. *)
Definition search_title_query (title : string) : string :=
  ("search publications in title_only for " ++ double_quote ++ backslash
   ++ double_quote
   ++ PyStr.replace_char "034" (backslash ++ double_quote) title
   ++ backslash ++ double_quote ++ double_quote
   ++ " return publications[all]")%string.

Definition full_text_query (search_term : string) : string :=
  ("search publications in full_data for " ++ double_quote ++ backslash
   ++ double_quote ++ search_term ++ backslash ++ double_quote ++ double_quote
   ++ " return publications[doi+title+journal+author_affiliations]")%string.

Definition pub_id_query (dimensions_id : string) : string :=
  ("search publications where id = " ++ double_quote ++ dimensions_id
   ++ double_quote ++ " return publications[all] limit 1")%string.

(** What the Dimensions client answers to [query]. *)
Definition client_answer (w : world) (c : dimensions_client) (query : string)
  : result pyval :=
  dimensions_execute_query w (username c) (password c) query.

(** A world whose configuration gives the e-mail address as a value
    with a lone percent sign, which [configparser] refuses to expand, and
    has no password. *)
Definition world_with_bad_percent : world :=
  {| urllib_quote := fun s => s;
     urllib_quote_plus := fun s => s;
     requests_get_text := fun _ => Return "<response>";
     html_parser := fun _ => empty_document;
     json_loads := fun _ => Return (PDict []);
     config_default :=
       fun key => if String.eqb key "email"
                  then Raise (OtherError "InterpolationSyntaxError")
                  else Raise KeyError;
     dimensions_execute_query := fun _ _ _ => Return (dimensions_answer []);
     chrome_start := fun _ => Return tt;
     browser_page := fun _ => Return empty_document;
     browser_url_after_search := fun t => t |}.

(** An OpenAIRE answer whose first entry has no title and whose second
    entry is under the queried title. *)
Definition openaire_untitled_then_match : node :=
  Tag "[document]" []
    [Tag "results" []
       [Tag "oaf:result" [] [element "url" "http://example.org/0"];
        openaire_entry "Deal or No Deal?" "http://example.org/1"
          ["Smith J"; "Doe A"] ["OPEN"]]].

(** Does [s] hold a comma followed by a space? *)
Fixpoint has_comma_space (s : list ascii) : bool :=
  match s with
  | a :: r =>
      match r with
      | b :: _ => (Ascii.eqb a "," && Ascii.eqb b " ") || has_comma_space r
      | [] => false
      end
  | [] => false
  end.

(** * Properties *)

(** ** Characters *)

Ltac each_ascii c :=
  destruct c as [[] [] [] [] [] [] [] []]; vm_compute;
  try reflexivity; try discriminate; auto.

Lemma lower_char_idempotent (c : ascii) :
  PyStr.lower_char (PyStr.lower_char c) = PyStr.lower_char c.
Proof. each_ascii c. Qed.

Lemma lower_char_isspace (c : ascii) :
  PyStr.isspace (PyStr.lower_char c) = PyStr.isspace c.
Proof. each_ascii c. Qed.

Lemma lower_char_strip (c : ascii) :
  PyStr.mem (PyStr.lower_char c) title_strip_chars = PyStr.mem c title_strip_chars.
Proof. each_ascii c. Qed.

Lemma lower_char_space : PyStr.lower_char " " = " "%char.
Proof. reflexivity. Qed.

(** ** Stripping and collapsing *)

Section Strip.

Variable chars : list ascii.

Let head_kept := head_outside chars.

Lemma lstrip_head_kept (s : list ascii) :
  head_kept (PyStr.lstrip_chars chars s).
Proof.
  induction s as [|c r IH]; simpl; [exact I|].
  destruct (PyStr.mem c chars) eqn:E; [exact IH | exact E].
Qed.

Lemma lstrip_fixed (s : list ascii) :
  head_kept s -> PyStr.lstrip_chars chars s = s.
Proof.
  destruct s as [|c r]; simpl; [reflexivity|].
  intros ->. reflexivity.
Qed.

Lemma lstrip_suffix (s : list ascii) :
  exists p, s = p ++ PyStr.lstrip_chars chars s.
Proof.
  induction s as [|c r [p IH]]; simpl.
  - exists []. reflexivity.
  - destruct (PyStr.mem c chars).
    + exists (c :: p). simpl. f_equal. exact IH.
    + exists []. reflexivity.
Qed.

Lemma rstrip_prefix (s : list ascii) :
  exists q, s = PyStr.rstrip_chars chars s ++ q.
Proof.
  unfold PyStr.rstrip_chars.
  destruct (lstrip_suffix (rev s)) as [p Hp].
  exists (rev p).
  rewrite <- rev_app_distr, <- Hp, rev_involutive. reflexivity.
Qed.

Lemma rstrip_head_kept (s : list ascii) :
  head_kept s -> head_kept (PyStr.rstrip_chars chars s).
Proof.
  intros H. destruct (rstrip_prefix s) as [q Hq].
  destruct (PyStr.rstrip_chars chars s) as [|c r] eqn:E; [exact I|].
  rewrite Hq in H. exact H.
Qed.

Lemma strip_head_kept (s : list ascii) :
  head_kept (PyStr.strip_chars chars s).
Proof. apply rstrip_head_kept, lstrip_head_kept. Qed.

Lemma strip_last_kept (s : list ascii) :
  head_kept (rev (PyStr.strip_chars chars s)).
Proof.
  unfold PyStr.strip_chars, PyStr.rstrip_chars.
  rewrite rev_involutive. apply lstrip_head_kept.
Qed.

Lemma strip_fixed (s : list ascii) :
  head_kept s -> head_kept (rev s) -> PyStr.strip_chars chars s = s.
Proof.
  intros H1 H2. unfold PyStr.strip_chars, PyStr.rstrip_chars.
  rewrite (lstrip_fixed s H1), (lstrip_fixed (rev s) H2).
  apply rev_involutive.
Qed.

Lemma lstrip_length (s : list ascii) :
  List.length (PyStr.lstrip_chars chars s) <= List.length s.
Proof.
  induction s as [|c r IH]; cbn [PyStr.lstrip_chars]; [apply le_n|].
  destruct (PyStr.mem c chars); cbn [List.length]; lia.
Qed.

Lemma rstrip_length (s : list ascii) :
  List.length (PyStr.rstrip_chars chars s) <= List.length s.
Proof.
  unfold PyStr.rstrip_chars. rewrite length_rev.
  rewrite <- (length_rev s). apply lstrip_length.
Qed.

Lemma lstrip_shorter (s : list ascii) :
  ~ head_kept s -> List.length (PyStr.lstrip_chars chars s) < List.length s.
Proof.
  destruct s as [|c r]; cbn [head_outside PyStr.lstrip_chars head_kept].
  - intros N. exfalso. apply N. exact I.
  - unfold head_kept, head_outside.
    destruct (PyStr.mem c chars); [intros _ | intros N; exfalso; auto].
    cbn [List.length]. pose proof (lstrip_length r). lia.
Qed.

(** A string that begins or ends with one of [chars] loses length. *)
Lemma strip_shorter (s : list ascii) :
  ~ head_kept s \/ ~ head_kept (rev s) ->
  List.length (PyStr.strip_chars chars s) < List.length s.
Proof.
  unfold PyStr.strip_chars. intros [N|N].
  - pose proof (lstrip_shorter s N).
    pose proof (rstrip_length (PyStr.lstrip_chars chars s)). lia.
  - destruct s as [|c r]; [exfalso; apply N; exact I|].
    cbn [PyStr.lstrip_chars].
    destruct (PyStr.mem c chars) eqn:E.
    + pose proof (lstrip_length r).
      pose proof (rstrip_length (PyStr.lstrip_chars chars r)).
      cbn [List.length]. lia.
    + unfold PyStr.rstrip_chars. rewrite length_rev.
      rewrite <- (length_rev (c :: r)). apply lstrip_shorter. exact N.
Qed.

End Strip.

Lemma collapse_snoc (b : bool) (s : list ascii) (c : ascii) :
  PyStr.isspace c = false ->
  PyStr.collapse_from b (s ++ [c]) = PyStr.collapse_from b s ++ [c].
Proof.
  intros Hc. revert b.
  induction s as [|x r IH]; intros b; simpl.
  - rewrite Hc. reflexivity.
  - destruct (PyStr.isspace x); [destruct b|]; simpl; rewrite IH; reflexivity.
Qed.

(** Collapsing again, after lower-casing, changes nothing. *)
Lemma collapse_lower_collapse (b : bool) (s : list ascii) :
  PyStr.collapse_from b (map PyStr.lower_char (PyStr.collapse_from b s))
  = map PyStr.lower_char (PyStr.collapse_from b s).
Proof.
  revert b. induction s as [|c r IH]; intros b; simpl; [reflexivity|].
  destruct (PyStr.isspace c) eqn:E.
  - destruct b; [apply IH|].
    simpl. rewrite (IH true). reflexivity.
  - simpl. rewrite lower_char_isspace, E, (IH false). reflexivity.
Qed.

Lemma cleaned_head_outside (s : list ascii) :
  head_outside title_strip_chars s ->
  starts_with_space s = false ->
  head_outside title_strip_chars (map PyStr.lower_char (PyStr.sub_spaces s)).
Proof.
  unfold PyStr.sub_spaces.
  destruct s as [|c r];
    cbn [head_outside starts_with_space PyStr.collapse_from map]; [trivial|].
  intros Hk Hs. rewrite Hs.
  cbn [head_outside map]. rewrite lower_char_strip. exact Hk.
Qed.

Lemma cleaned_last_outside (s : list ascii) :
  head_outside title_strip_chars (rev s) ->
  starts_with_space (rev s) = false ->
  head_outside title_strip_chars (rev (map PyStr.lower_char (PyStr.sub_spaces s))).
Proof.
  rewrite <- (rev_involutive s) at 3.
  destruct (rev s) as [|c q];
    cbn [head_outside starts_with_space rev]; [trivial|].
  intros Hk Hs. unfold PyStr.sub_spaces.
  rewrite (collapse_snoc _ _ _ Hs), map_app, rev_app_distr.
  cbn [head_outside map rev app]. rewrite lower_char_strip. exact Hk.
Qed.

Lemma collapse_length (b : bool) (s : list ascii) :
  List.length (PyStr.collapse_from b s) <= List.length s.
Proof.
  revert b. induction s as [|c r IH]; intros b; cbn [PyStr.collapse_from];
    [apply le_n|].
  destruct (PyStr.isspace c); [destruct b|]; cbn [List.length];
    try (pose proof (IH true)); try (pose proof (IH false)); lia.
Qed.

(** A run of whitespace at the end leaves one space at the end, be it
    the space that the run already gave ([b] true). *)
Lemma collapse_trailing (c : ascii) (s : list ascii) :
  PyStr.isspace c = true ->
  forall b, exists u,
    (if b : bool then " "%char :: PyStr.collapse_from b (s ++ [c])
     else PyStr.collapse_from b (s ++ [c])) = u ++ [" "%char].
Proof.
  intros Hc. induction s as [|x r IH]; intros b;
    cbn [app PyStr.collapse_from].
  - rewrite Hc. destruct b; exists []; reflexivity.
  - destruct (PyStr.isspace x).
    + destruct (IH true) as [u Hu]. destruct b; exists u; exact Hu.
    + destruct (IH false) as [u Hu]. rewrite Hu.
      destruct b; [exists (" "%char :: x :: u) | exists (x :: u)]; reflexivity.
Qed.

(** Cleaning an untidy title leaves a space at one end. *)
Lemma cleaned_untidy_edge (s : list ascii) :
  starts_with_space s = true \/ starts_with_space (rev s) = true ->
  let t := map PyStr.lower_char (PyStr.sub_spaces s) in
  ~ head_outside title_strip_chars t \/ ~ head_outside title_strip_chars (rev t).
Proof.
  unfold PyStr.sub_spaces. intros [Hs|Hs].
  - left. destruct s as [|c r]; [discriminate|].
    cbn [starts_with_space] in Hs.
    cbn [PyStr.collapse_from]. rewrite Hs.
    cbn [map head_outside]. rewrite lower_char_space. discriminate.
  - right. rewrite <- (rev_involutive s).
    destruct (rev s) as [|c q]; [discriminate|].
    cbn [starts_with_space] in Hs. cbn [rev].
    destruct (collapse_trailing c (rev q) Hs false) as [u Hu].
    rewrite Hu, map_app, rev_app_distr.
    cbn [map rev app head_outside]. rewrite lower_char_space. discriminate.
Qed.

Lemma clean_title_str_untidy (s : string) :
  tidy_title s = false -> clean_title_str (clean_title_str s) <> clean_title_str s.
Proof.
  unfold tidy_title, clean_title_str. intros H E.
  rewrite list_ascii_of_string_of_list_ascii in E.
  set (s' := PyStr.strip_chars title_strip_chars (list_ascii_of_string s)) in *.
  set (t := map PyStr.lower_char (PyStr.sub_spaces s')) in *.
  assert (Hedge : starts_with_space s' = true \/ starts_with_space (rev s') = true).
  { apply andb_false_iff in H.
    destruct H as [H|H]; apply negb_false_iff in H; auto. }
  pose proof (strip_shorter title_strip_chars t (cleaned_untidy_edge s' Hedge))
    as Hlt.
  apply (f_equal list_ascii_of_string) in E.
  rewrite !list_ascii_of_string_of_list_ascii in E.
  apply (f_equal (@List.length ascii)) in E.
  rewrite length_map in E.
  pose proof (collapse_length false (PyStr.strip_chars title_strip_chars t)) as Hle.
  unfold PyStr.sub_spaces in E. lia.
Qed.

Lemma clean_title_str_tidy (s : string) :
  tidy_title s = true -> clean_title_str (clean_title_str s) = clean_title_str s.
Proof.
  unfold tidy_title, clean_title_str. intros H.
  apply andb_prop in H. destruct H as [H1 H2].
  apply negb_true_iff in H1. apply negb_true_iff in H2.
  rewrite list_ascii_of_string_of_list_ascii.
  set (s' := PyStr.strip_chars title_strip_chars (list_ascii_of_string s)) in *.
  assert (K1 : head_outside title_strip_chars s') by apply strip_head_kept.
  assert (K2 : head_outside title_strip_chars (rev s')) by apply strip_last_kept.
  rewrite (strip_fixed title_strip_chars _
             (cleaned_head_outside s' K1 H1) (cleaned_last_outside s' K2 H2)).
  unfold PyStr.sub_spaces. rewrite collapse_lower_collapse.
  rewrite map_map. f_equal. apply map_ext. intros c. apply lower_char_idempotent.
Qed.

(** ** Title normalisation and matching *)


(** The tidy titles are all the titles on which cleaning twice is
    cleaning once. *)
Lemma clean_title_idempotent_iff_tidy (s : string) :
  clean_title_str (clean_title_str s) = clean_title_str s
  <-> tidy_title s = true.
Proof.
  split; [|apply clean_title_str_tidy].
  intros E. destruct (tidy_title s) eqn:T; [reflexivity|].
  exfalso. exact (clean_title_str_untidy s T E).
Qed.



Example title_match_ignores_case_and_punctuation :
  title_match (Some "Deal or No Deal?") (Some "deal or no deal") = Return true.
Proof. reflexivity. Qed.

Lemma title_match_sym (a b : option string) :
  a <> None -> b <> None -> title_match a b = title_match b a.
Proof.
  destruct a as [x|], b as [y|]; try contradiction. intros _ _.
  cbn. rewrite String.eqb_sym. reflexivity.
Qed.

Lemma title_match_refl (a : string) : title_match (Some a) (Some a) = Return true.
Proof. cbn. rewrite String.eqb_refl. reflexivity. Qed.

(** C1.  When either title is [None], [title_match] does not answer
    [False]: the [strip] on [None] raises [AttributeError]. *)
Theorem title_match_none_raises (t : option string) :
  title_match None t = Raise AttributeError
  /\ title_match t None = Raise AttributeError.
Proof.
  split; [reflexivity|].
  destruct t as [s|]; reflexivity.
Qed.

(** ** RePEc *)

(** C4.  [repec_get_meta] hands its arguments to [repec_get_api_url] in
    the wrong order: the address it requests has the handle as [code] and
    the token as [getref]. *)
Theorem repec_get_meta_requests_swapped_url (w : world) (token handle : string) :
  exists rest,
    fst (repec_get_meta w token handle)
    = HttpGet ("https://api.repec.org/call.cgi?code=" ++ handle
               ++ "&getref=" ++ token) :: rest.
Proof.
  unfold repec_get_meta, repec_get_api_url, REPEC_API_URL_format,
    http_get_text, try_except, lift, emit.
  cbn [bind io_monad ret].
  destruct (requests_get_text w _) as [response|e]; cbn.
  - destruct (json_loads w response) as [meta|e]; cbn; eexists; reflexivity.
  - eexists; reflexivity.
Qed.

(** ** The dispatchers *)

Lemma io_bind_ret_some {A} (m : io A) :
  (r <- m ;; ret (Some r)) = (let (t, o) := m in
                              (t, match o with
                                  | Return a => Return (Some a)
                                  | Raise e => Raise e
                                  end)).
Proof.
  destruct m as [t [a|e]]; cbn; [rewrite app_nil_r|]; reflexivity.
Qed.

Lemma io_bind_ret_r {A} (m : io A) : (r <- m ;; ret r) = m.
Proof.
  destruct m as [t [a|e]]; cbn; [rewrite app_nil_r|]; reflexivity.
Qed.

(** C2.  [title_search] lower-cases the provider name and calls one
    function with the title.  For [dimensions] and [ssrn] that is the
    provider's adapter, and its result is returned; for [europepmc] and
    [openaire] the function called is a name the module never binds, and
    the call raises [NameError]. *)
Theorem title_search_dispatch `{HashOrder} (w : world) (title api_name : string) :
  (PyStr.lower api_name = "dimensions" ->
     title_search w title api_name = get_dimensions_md w title)
  /\ (PyStr.lower api_name = "ssrn" ->
     title_search w title api_name
     = (l <- search_ssrn w title ;; ret (Py.of_option l)))
  /\ (PyStr.lower api_name = "europepmc" ->
     title_search w title api_name = ([], Raise NameError))
  /\ (PyStr.lower api_name = "openaire" ->
     title_search w title api_name = ([], Raise NameError)).
Proof.
  unfold title_search.
  repeat split; intros ->;
    cbn [String.eqb Ascii.eqb Bool.eqb];
    change (call_global w "get_dimensions_md" title) with (get_dimensions_md w title);
    change (call_global w "search_ssrn" title)
      with (l <- search_ssrn w title ;; ret (Py.of_option l));
    try reflexivity.
  - destruct (get_dimensions_md w title) as [t [v|e]]; cbn;
      rewrite ?app_nil_r; reflexivity.
  - destruct (search_ssrn w title) as [t [v|e]]; cbn;
      rewrite ?app_nil_r; reflexivity.
Qed.

Lemma title_search_dispatch_witness :
  PyStr.lower "EuropePMC" = "europepmc"
  /\ @title_search insertion_order
       (fixed_world empty_document empty_document PNone) "Deal or no deal"
       "EuropePMC" = ([], Raise NameError)
  /\ PyStr.lower "SSRN" = "ssrn"
  /\ @title_search insertion_order
       (fixed_world empty_document empty_document PNone) "Deal or no deal" "SSRN"
     = (l <- search_ssrn (fixed_world empty_document empty_document PNone)
               "Deal or no deal" ;;
        ret (Py.of_option l)).
Proof.
  split; [reflexivity|]. split.
  - apply (proj1 (proj2 (proj2
      (@title_search_dispatch insertion_order _ _ "EuropePMC")))). reflexivity.
  - split; [reflexivity|].
    apply (proj1 (proj2
      (@title_search_dispatch insertion_order _ _ "SSRN"))). reflexivity.
Defined.

(** C5, as amended.  A provider name outside the recognised ones makes
    both dispatchers fail, with the interpreter's [UnboundLocalError] for
    the result variable that no branch assigned; nothing is returned. *)
Theorem unknown_provider_unbound_local `{HashOrder} (w : world)
    (query api_name : string) :
  (PyStr.lower api_name <> "dimensions" ->
   PyStr.lower api_name <> "ssrn" ->
   PyStr.lower api_name <> "europepmc" ->
   PyStr.lower api_name <> "openaire" ->
   title_search w query api_name = ([], Raise UnboundLocalError))
  /\ (PyStr.lower api_name <> "dimensions" ->
      full_text_search w query api_name = ([], Raise UnboundLocalError)).
Proof.
  unfold title_search, full_text_search. split.
  - intros H1 H2 H3 H4.
    apply String.eqb_neq in H1, H2, H3, H4.
    rewrite H1, H2, H3, H4. reflexivity.
  - intros H1. apply String.eqb_neq in H1. rewrite H1. reflexivity.
Qed.

Lemma unknown_provider_unbound_local_witness :
  @title_search insertion_order
     (fixed_world empty_document empty_document PNone) "Deal or no deal" "Scopus"
  = ([], Raise UnboundLocalError)
  /\ full_text_search (fixed_world empty_document empty_document PNone)
       "price promotions" "Scopus" = ([], Raise UnboundLocalError).
Proof.
  split.
  - apply (proj1 (@unknown_provider_unbound_local insertion_order _ _ "Scopus"));
      vm_compute; discriminate.
  - apply (proj2 (@unknown_provider_unbound_local insertion_order _ _ "Scopus"));
      vm_compute; discriminate.
Defined.

(** C5, as stated, fails: the failure for an unknown provider is not an
    [UnknownProvider] error. *)
Lemma unknown_provider_is_not_typed :
  exists e,
    @title_search insertion_order
       (fixed_world empty_document empty_document PNone) "Deal or no deal" "Scopus"
    = ([], Raise e)
    /\ full_text_search (fixed_world empty_document empty_document PNone)
         "price promotions" "Scopus" = ([], Raise e)
    /\ exn_name e = "UnboundLocalError"
    /\ exn_name e <> "UnknownProvider".
Proof.
  exists UnboundLocalError.
  split; [reflexivity|]. split; [reflexivity|]. split; [reflexivity|].
  discriminate.
Qed.

(** ** Dictionaries and sets *)

Lemma memb_In (k : string) (l : list string) : memb k l = true <-> In k l.
Proof.
  unfold memb. rewrite existsb_exists. split.
  - intros [x [Hx E]]. apply String.eqb_eq in E. subst. exact Hx.
  - intros Hk. exists k. split; [exact Hk | apply String.eqb_refl].
Qed.

Lemma memb_ext (k : string) (l l' : list string) :
  (In k l <-> In k l') -> memb k l = memb k l'.
Proof.
  intros E. apply eq_true_iff_eq. rewrite !memb_In. exact E.
Qed.

Lemma memb_app (k : string) (l l' : list string) :
  memb k (l ++ l') = memb k l || memb k l'.
Proof. apply existsb_app. Qed.

Lemma memb_set_order `{HashOrder} (k : string) (l : list string) :
  memb k (set_order l) = memb k l.
Proof.
  apply memb_ext. split; apply Permutation_in;
    [|apply Permutation_sym]; apply set_order_perm.
Qed.

Lemma memb_set_add (k : string) (acc : list string) (x : string) :
  memb k (Py.set_add String.eqb acc x) = memb k acc || String.eqb k x.
Proof.
  unfold Py.set_add.
  destruct (existsb (String.eqb x) acc) eqn:E.
  - destruct (String.eqb_spec k x) as [->|_].
    + unfold memb. rewrite E. reflexivity.
    + rewrite orb_false_r. reflexivity.
  - rewrite memb_app. cbn. rewrite orb_false_r. reflexivity.
Qed.

Lemma memb_fold_set_add (k : string) (l acc : list string) :
  memb k (fold_left (Py.set_add String.eqb) l acc) = memb k acc || memb k l.
Proof.
  revert acc. induction l as [|x r IH]; intros acc; cbn [fold_left].
  - cbn. rewrite orb_false_r. reflexivity.
  - rewrite IH, memb_set_add, <- orb_assoc. reflexivity.
Qed.

Lemma memb_set_of_list (k : string) (l : list string) :
  memb k (Py.set_of_list String.eqb l) = memb k l.
Proof. unfold Py.set_of_list. rewrite memb_fold_set_add. reflexivity. Qed.

Lemma memb_set_inter (k : string) (a b : list string) :
  memb k (Py.set_inter String.eqb a b) = memb k a && memb k b.
Proof.
  unfold memb, Py.set_inter.
  induction a as [|x r IH]; cbn [filter existsb]; [reflexivity|].
  destruct (existsb (String.eqb x) b) eqn:E; cbn [existsb]; rewrite IH;
    destruct (String.eqb_spec k x) as [->|_]; cbn [orb andb];
    rewrite ?E, ?andb_false_r; reflexivity.
Qed.

Lemma dict_get_set {V} (d : list (string * V)) (k k' : string) (v : V) :
  Py.dict_get (Py.dict_set d k v) k'
  = if String.eqb k' k then Some v else Py.dict_get d k'.
Proof.
  induction d as [|[k0 v0] r IH]; cbn.
  - reflexivity.
  - destruct (String.eqb_spec k k0) as [->|Hk]; cbn.
    + destruct (String.eqb k' k0); reflexivity.
    + rewrite IH. destruct (String.eqb_spec k' k0) as [->|_]; [|reflexivity].
      destruct (String.eqb_spec k0 k) as [E|_]; [|reflexivity].
      symmetry in E. contradiction.
Qed.

Lemma dict_get_keys {V} (d : list (string * V)) (k : string) :
  memb k (map fst d) = match Py.dict_get d k with
                       | Some _ => true
                       | None => false
                       end.
Proof.
  induction d as [|[k0 v0] r IH]; cbn; [reflexivity|].
  destruct (String.eqb k k0); [reflexivity | exact IH].
Qed.

(** What a dictionary comprehension builds, when the value expression
    succeeds on every key. *)
Lemma dict_comp_spec {V} (f : string -> result V) (ks : list string) :
  forall acc,
    (forall k, In k ks -> exists v, f k = Return v) ->
    exists out,
      Py.dict_comp f ks acc = Return out
      /\ forall k, Py.dict_get out k
                   = if memb k ks
                     then match f k with
                          | Return v => Some v
                          | Raise _ => None
                          end
                     else Py.dict_get acc k.
Proof.
  induction ks as [|a r IH]; intros acc Hf.
  - exists acc. split; reflexivity.
  - destruct (Hf a (or_introl eq_refl)) as [v Hv].
    destruct (IH (Py.dict_set acc a v)) as [out [Hout Hget]].
    { intros k Hk. apply Hf. right. exact Hk. }
    exists out. split.
    + cbn. rewrite Hv. exact Hout.
    + intros k. rewrite Hget. unfold memb. cbn [existsb].
      destruct (existsb (String.eqb k) r); [rewrite orb_true_r; reflexivity|].
      rewrite orb_false_r, dict_get_set.
      destruct (String.eqb_spec k a) as [->|_]; [rewrite Hv|]; reflexivity.
Qed.

(** Sets of strings, as [Py.set] builds them from a list of strings. *)
Lemma existsb_eqb_PStr (x : string) (acc : list string) :
  existsb (Py.eqb (PStr x)) (map PStr acc) = existsb (String.eqb x) acc.
Proof.
  induction acc as [|a r IH]; cbn; [reflexivity|]. rewrite IH. reflexivity.
Qed.

Lemma fold_set_add_PStr (l acc : list string) :
  fold_left (Py.set_add Py.eqb) (map PStr l) (map PStr acc)
  = map PStr (fold_left (Py.set_add String.eqb) l acc).
Proof.
  revert acc. induction l as [|x r IH]; intros acc; cbn; [reflexivity|].
  rewrite <- IH. f_equal. unfold Py.set_add.
  rewrite existsb_eqb_PStr.
  destruct (existsb (String.eqb x) acc); [reflexivity|].
  rewrite map_app. reflexivity.
Qed.

Lemma NoDup_fold_set_add (l acc : list string) :
  NoDup acc -> NoDup (fold_left (Py.set_add String.eqb) l acc).
Proof.
  revert acc. induction l as [|x r IH]; intros acc Hacc; cbn; [exact Hacc|].
  apply IH. unfold Py.set_add.
  destruct (existsb (String.eqb x) acc) eqn:E; [exact Hacc|].
  apply (Permutation_NoDup (Permutation_cons_append acc x)).
  constructor; [|exact Hacc].
  intros Hin. apply memb_In in Hin. unfold memb in Hin. congruence.
Qed.

Lemma py_set_of_strings (l : list string) :
  Py.set (PList (map PStr l))
  = Return (map PStr (Py.set_of_list String.eqb l)).
Proof.
  unfold Py.set. cbn.
  assert (E : forallb Py.hashable (map PStr l) = true).
  { induction l; cbn; auto. }
  rewrite E. unfold Py.set_of_list.
  rewrite <- (fold_set_add_PStr l []). reflexivity.
Qed.

Lemma NoDup_map_PStr (l : list string) : NoDup l -> NoDup (map PStr l).
Proof.
  induction 1 as [|x r Hx _ IH]; cbn; constructor; [|exact IH].
  rewrite in_map_iff. intros [y [E Hy]]. injection E as ->. contradiction.
Qed.

(** ** Dimensions records *)

Section FormatDimensions.

Context `{HashOrder}.
Variable d : list (string * pyval).

Local Abbreviation filt_keys :=
  (set_order (Py.set_inter String.eqb (Py.set_of_list String.eqb (map fst d))
                (Py.set_of_list String.eqb allowed_raw_keys))).

Local Abbreviation final_keys :=
  (set_order (Py.set_inter String.eqb (Py.set_of_list String.eqb filt_keys)
                (Py.set_of_list String.eqb allowed_final_keys))
   ++ ["keywords"; "journal_title"])%list.

Lemma memb_filt_keys (k : string) :
  memb k filt_keys = memb k (map fst d) && memb k allowed_raw_keys.
Proof.
  rewrite memb_set_order, memb_set_inter, !memb_set_of_list. reflexivity.
Qed.

Lemma memb_final_keys (k : string) :
  memb k final_keys
  = (memb k (map fst d) && memb k allowed_raw_keys && memb k allowed_final_keys)
    || memb k ["keywords"; "journal_title"].
Proof.
  rewrite memb_app, memb_set_order, memb_set_inter, !memb_set_of_list,
    memb_filt_keys.
  reflexivity.
Qed.

(** The first comprehension keeps the allowed fields of the record. *)
Lemma pubs_dict_spec :
  exists pubs,
    Py.dict_comp (Py.getitem_str (PDict d)) filt_keys [] = Return pubs
    /\ forall k, Py.dict_get pubs k
                 = if memb k allowed_raw_keys then Py.dict_get d k else None.
Proof.
  destruct (dict_comp_spec (Py.getitem_str (PDict d)) filt_keys []) as [pubs [E G]].
  - intros k Hk. apply memb_In in Hk. rewrite memb_filt_keys in Hk.
    apply andb_prop in Hk. destruct Hk as [Hk _].
    rewrite dict_get_keys in Hk. cbn [Py.getitem_str]. unfold Py.dict_getitem.
    destruct (Py.dict_get d k) as [v|]; [exists v; reflexivity | discriminate].
  - exists pubs. split; [exact E|].
    intros k. rewrite G, memb_filt_keys, dict_get_keys.
    cbn [Py.getitem_str Py.dict_get]. unfold Py.dict_getitem.
    destruct (Py.dict_get d k); destruct (memb k allowed_raw_keys); reflexivity.
Qed.

End FormatDimensions.

Section FormatDimensionsClaims.

Context `{HashOrder}.
Variable d : list (string * pyval).

Local Abbreviation filt_keys :=
  (set_order (Py.set_inter String.eqb (Py.set_of_list String.eqb (map fst d))
                (Py.set_of_list String.eqb allowed_raw_keys))).

Local Abbreviation final_keys :=
  (set_order (Py.set_inter String.eqb (Py.set_of_list String.eqb filt_keys)
                (Py.set_of_list String.eqb allowed_final_keys))
   ++ ["keywords"; "journal_title"])%list.

Lemma pubs_getitem (pubs : list (string * pyval)) (k : string) :
  (forall k, Py.dict_get pubs k
             = if memb k allowed_raw_keys then Py.dict_get d k else None) ->
  memb k allowed_raw_keys = true ->
  Py.dict_getitem pubs k = Py.dict_getitem d k.
Proof.
  intros G Hk. unfold Py.dict_getitem. rewrite G, Hk. reflexivity.
Qed.

(** The run of [format_dimensions] on a record that has its three source
    fields, down to the last comprehension. *)
Lemma format_dimensions_run (terms concepts : list string)
    (journal : list (string * pyval)) (jt : pyval) :
  Py.dict_get d "terms" = Some (PList (map PStr terms)) ->
  Py.dict_get d "concepts" = Some (PList (map PStr concepts)) ->
  Py.dict_get d "journal" = Some (PDict journal) ->
  Py.dict_get journal "title" = Some jt ->
  exists out kws,
    format_dimensions (PDict d) = Return out
    /\ Permutation kws (map PStr (Py.set_of_list String.eqb (terms ++ concepts)))
    /\ forall k,
         Py.dict_get out k
         = if memb k final_keys
           then (if String.eqb k "journal_title" then Some jt
                 else if String.eqb k "keywords" then Some (PList kws)
                 else Py.dict_get d k)
           else None.
Proof.
  intros Ht Hc Hj Hjt.
  destruct (pubs_dict_spec d) as [pubs [Epubs G]].
  set (kws := set_order (map PStr (Py.set_of_list String.eqb (terms ++ concepts)))).
  set (pubs2 := Py.dict_set (Py.dict_set pubs "keywords" (PList kws))
                  "journal_title" jt).
  assert (G2 : forall k,
             Py.dict_get pubs2 k
             = if String.eqb k "journal_title" then Some jt
               else if String.eqb k "keywords" then Some (PList kws)
               else if memb k allowed_raw_keys then Py.dict_get d k else None).
  { intros k. unfold pubs2. rewrite !dict_get_set, G. reflexivity. }
  destruct (dict_comp_spec (Py.dict_getitem pubs2) final_keys []) as [out [Eout Gout]].
  { intros k Hk. apply memb_In in Hk. rewrite memb_final_keys in Hk.
    unfold Py.dict_getitem. rewrite G2.
    destruct (String.eqb_spec k "journal_title") as [->|N1]; [eauto|].
    destruct (String.eqb_spec k "keywords") as [->|N2]; [eauto|].
    apply orb_prop in Hk. destruct Hk as [Hk|Hk].
    - apply andb_prop in Hk. destruct Hk as [Hk _].
      apply andb_prop in Hk. destruct Hk as [Hk1 Hk2].
      rewrite Hk2. rewrite dict_get_keys in Hk1.
      destruct (Py.dict_get d k) as [v|]; [eauto | discriminate].
    - apply memb_In in Hk. destruct Hk as [<-|[<-|[]]]; contradiction. }
  exists out, kws. split; [|split].
  - unfold format_dimensions. cbn [Py.keys bind result_monad].
    rewrite Epubs.
    rewrite (pubs_getitem pubs "terms" G eq_refl).
    rewrite (pubs_getitem pubs "concepts" G eq_refl).
    unfold Py.dict_getitem at 1 2. rewrite Ht, Hc.
    cbn [Py.add]. rewrite <- map_app, py_set_of_strings.
    fold kws.
    unfold Py.dict_getitem at 1. rewrite dict_get_set, G, Hj.
    cbn [String.eqb Ascii.eqb Bool.eqb memb existsb allowed_raw_keys orb].
    cbn [Py.getitem_str]. unfold Py.dict_getitem at 1. rewrite Hjt.
    fold pubs2. exact Eout.
  - apply set_order_perm.
  - intros k. rewrite Gout. cbn [Py.dict_get].
    destruct (memb k final_keys) eqn:Hk; [|reflexivity].
    unfold Py.dict_getitem. rewrite G2.
    destruct (String.eqb_spec k "journal_title") as [->|N1]; [reflexivity|].
    destruct (String.eqb_spec k "keywords") as [->|N2]; [reflexivity|].
    destruct (memb k allowed_raw_keys) eqn:Hr;
      destruct (Py.dict_get d k) eqn:Hd; try reflexivity.
    exfalso. rewrite memb_final_keys, Hr, andb_false_r in Hk.
    (* k would have to be one of the two derived keys *)
    cbn in Hk. apply orb_prop in Hk.
    destruct Hk as [Hk|Hk]; [|rewrite orb_false_r in Hk].
    all: apply String.eqb_eq in Hk; contradiction.
Qed.

Ltac final_key :=
  rewrite memb_final_keys, dict_get_keys;
  cbn [memb existsb allowed_raw_keys allowed_final_keys
       String.eqb Ascii.eqb Bool.eqb orb andb].

(** C8.  On a record with [terms], [concepts] and a journal that has a
    title, [format_dimensions] returns a record whose [keywords] are the
    terms and concepts together, each once, in some order, whose
    [journal_title] is the journal's title, which has no [terms],
    [concepts] or [journal], only allowed keys, and in which [authors],
    [doi] and [linkout] are as in the input. *)
Theorem format_dimensions_derived_fields (terms concepts : list string)
    (journal : list (string * pyval)) (jt : pyval) :
  Py.dict_get d "terms" = Some (PList (map PStr terms)) ->
  Py.dict_get d "concepts" = Some (PList (map PStr concepts)) ->
  Py.dict_get d "journal" = Some (PDict journal) ->
  Py.dict_get journal "title" = Some jt ->
  exists out kws,
    format_dimensions (PDict d) = Return out
    /\ Py.dict_get out "keywords" = Some (PList kws)
    /\ NoDup kws
    /\ (forall v, In v kws <->
                  exists x, v = PStr x /\ (In x terms \/ In x concepts))
    /\ Py.dict_get out "journal_title" = Some jt
    /\ Py.dict_get out "terms" = None
    /\ Py.dict_get out "concepts" = None
    /\ Py.dict_get out "journal" = None
    /\ Py.dict_get out "authors" = Py.dict_get d "authors"
    /\ Py.dict_get out "doi" = Py.dict_get d "doi"
    /\ Py.dict_get out "linkout" = Py.dict_get d "linkout"
    /\ (forall k, Py.dict_get out k <> None -> In k allowed_final_keys).
Proof.
  intros Ht Hc Hj Hjt.
  destruct (format_dimensions_run terms concepts journal jt Ht Hc Hj Hjt)
    as [out [kws [Erun [Hperm G]]]].
  exists out, kws.
  split; [exact Erun|].
  split; [rewrite G; final_key; rewrite orb_true_r; reflexivity|].
  split.
  { apply (Permutation_NoDup (Permutation_sym Hperm)).
    apply NoDup_map_PStr, NoDup_fold_set_add. constructor. }
  split.
  { intros v. split.
    - intros Hv. apply (Permutation_in _ Hperm) in Hv.
      apply in_map_iff in Hv. destruct Hv as [x [<- Hx]].
      exists x. split; [reflexivity|].
      apply memb_In in Hx. rewrite memb_set_of_list in Hx.
      apply memb_In in Hx. apply in_app_iff. exact Hx.
    - intros [x [-> Hx]].
      apply (Permutation_in _ (Permutation_sym Hperm)).
      apply in_map. apply memb_In. rewrite memb_set_of_list.
      apply memb_In, in_app_iff. exact Hx. }
  split; [rewrite G; final_key; rewrite orb_true_r; reflexivity|].
  split; [rewrite G; final_key; rewrite Ht; reflexivity|].
  split; [rewrite G; final_key; rewrite Hc; reflexivity|].
  split; [rewrite G; final_key; rewrite Hj; reflexivity|].
  split; [rewrite G; final_key; destruct (Py.dict_get d "authors"); reflexivity|].
  split; [rewrite G; final_key; destruct (Py.dict_get d "doi"); reflexivity|].
  split; [rewrite G; final_key; destruct (Py.dict_get d "linkout"); reflexivity|].
  intros k Hk. rewrite G in Hk.
  destruct (memb k final_keys) eqn:E; [|contradiction].
  rewrite memb_final_keys in E. apply orb_prop in E. destruct E as [E|E].
  - apply andb_prop in E. destruct E as [_ E]. apply memb_In. exact E.
  - apply memb_In in E. destruct E as [<-|[<-|[]]]; cbn; auto 6.
Qed.

(** C10.  A Dimensions record that lacks [terms], [concepts] or [journal],
    or whose journal lacks [title], makes [format_dimensions] raise
    [KeyError]. *)
Theorem format_dimensions_missing_key :
  dimensions_record d -> missing_required d ->
  format_dimensions (PDict d) = Raise KeyError.
Proof.
  intros [Rt [Rc Rj]] Hmiss.
  destruct (pubs_dict_spec d) as [pubs [Epubs G]].
  unfold format_dimensions. cbn [Py.keys bind result_monad].
  rewrite Epubs.
  rewrite (pubs_getitem pubs "terms" G eq_refl).
  rewrite (pubs_getitem pubs "concepts" G eq_refl).
  unfold Py.dict_getitem at 1.
  destruct (Py.dict_get d "terms") as [t|] eqn:Ht; [|reflexivity].
  destruct (Rt t eq_refl) as [ts ->].
  unfold Py.dict_getitem at 1.
  destruct (Py.dict_get d "concepts") as [c|] eqn:Hc; [|reflexivity].
  destruct (Rc c eq_refl) as [cs ->].
  cbn [Py.add]. rewrite <- map_app, py_set_of_strings.
  unfold Py.dict_getitem at 1. rewrite dict_get_set, G.
  cbn [String.eqb Ascii.eqb Bool.eqb memb existsb allowed_raw_keys orb].
  destruct (Py.dict_get d "journal") as [j|] eqn:Hj; [|reflexivity].
  destruct (Rj j eq_refl) as [jd ->].
  cbn [Py.getitem_str]. unfold Py.dict_getitem at 1.
  destruct (Py.dict_get jd "title") as [jt|] eqn:Hjt; [|reflexivity].
  exfalso.
  destruct Hmiss as [E|[E|[E|[j' [E E']]]]]; congruence.
Qed.

End FormatDimensionsClaims.

Lemma format_dimensions_derived_fields_witness :
  exists out kws,
    @format_dimensions reverse_order (PDict example_record) = Return out
    /\ Py.dict_get out "keywords" = Some (PList kws)
    /\ (forall v, In v kws <->
                  exists x, v = PStr x /\ (In x ["a"; "b"] \/ In x ["b"; "c"]))
    /\ Py.dict_get out "journal_title" = Some (PStr "J")
    /\ Py.dict_get out "journal" = None.
Proof.
  destruct (@format_dimensions_derived_fields reverse_order example_record
              ["a"; "b"] ["b"; "c"]
              [("id", PStr "jour.1"); ("title", PStr "J")] (PStr "J")
              eq_refl eq_refl eq_refl eq_refl)
    as [out [kws [E [K [_ [M [J [_ [_ [N _]]]]]]]]]].
  exists out, kws. repeat split; try assumption; apply M.
Defined.

Lemma format_dimensions_missing_key_witness :
  dimensions_record record_without_journal
  /\ missing_required record_without_journal
  /\ @format_dimensions insertion_order (PDict record_without_journal)
     = Raise KeyError.
Proof.
  assert (R : dimensions_record record_without_journal).
  { split; [|split]; intros v E; vm_compute in E; try discriminate;
      injection E as <-.
    - exists ["a"; "b"]. reflexivity.
    - exists ["b"; "c"]. reflexivity. }
  assert (M : missing_required record_without_journal).
  { right. right. left. reflexivity. }
  split; [exact R|]. split; [exact M|].
  exact (@format_dimensions_missing_key insertion_order record_without_journal R M).
Defined.

(** ** EuropePMC and OpenAIRE *)

Lemma openaire_loop_first_match (title : string) (pre post : list node)
    (r : node) (meta : list (string * pyval)) :
  Forall (other_title title) pre ->
  title_match (Some title) (get_xml_node_value r "title") = Return true ->
  openaire_loop title (pre ++ r :: post) meta = Return (openaire_fill r meta).
Proof.
  intros Hpre Hr. induction Hpre as [|x pre Hx _ IH]; cbn [app openaire_loop].
  - rewrite Hr. reflexivity.
  - unfold other_title in Hx. rewrite Hx. exact IH.
Qed.

Lemma openaire_loop_no_match (title : string) (l : list node)
    (meta : list (string * pyval)) :
  Forall (other_title title) l -> openaire_loop title l meta = Return meta.
Proof.
  induction 1 as [|x l Hx _ IH]; cbn [openaire_loop]; [reflexivity|].
  unfold other_title in Hx. rewrite Hx. exact IH.
Qed.

Lemma europepmc_loop_no_match (title : string) (l : list node)
    (meta : list (string * pyval)) :
  Forall (other_title title) l -> europepmc_loop title l meta = Return meta.
Proof.
  induction 1 as [|x l Hx _ IH]; cbn [europepmc_loop]; [reflexivity|].
  unfold other_title in Hx. rewrite Hx. exact IH.
Qed.

(** An entry without a title element, met before any match, stops either
    search with the [AttributeError] of [title_match]. *)
Lemma untitled_entry_raises (title : string) (pre post : list node) (x : node)
    (meta : list (string * pyval)) :
  Forall (other_title title) pre ->
  get_xml_node_value x "title" = None ->
  openaire_loop title (pre ++ x :: post) meta = Raise AttributeError
  /\ europepmc_loop title (pre ++ x :: post) meta = Raise AttributeError.
Proof.
  intros Hpre Hx.
  induction Hpre as [|y pre Hy _ [IH1 IH2]];
    cbn [app openaire_loop europepmc_loop].
  - rewrite Hx. split; reflexivity.
  - unfold other_title in Hy. rewrite Hy. split; [exact IH1 | exact IH2].
Qed.

(** The open-access flag: some [bestaccessright] element below the entry
    has [classid] equal to [OPEN]. *)
Lemma open_flag_spec (r : node) :
  (0 <? List.length
          (Soup.find_all r (Some "bestaccessright") [("classid", "OPEN")]))%nat
  = true
  <-> exists attrs cs,
        In (Tag "bestaccessright" attrs cs) (Soup.descendants r)
        /\ Py.dict_get attrs "classid" = Some "OPEN".
Proof.
  unfold Soup.find_all. split.
  - intros Hlen. apply Nat.ltb_lt in Hlen.
    destruct (filter _ (Soup.descendants r)) as [|n rest] eqn:E;
      [cbn in Hlen; lia|].
    assert (Hn : In n (n :: rest)) by (left; reflexivity).
    rewrite <- E in Hn. apply filter_In in Hn. destruct Hn as [Hin Hp].
    apply andb_prop in Hp. destruct Hp as [Hname Hattr].
    destruct n as [nm attrs cs|s]; [|discriminate].
    cbn in Hname. apply String.eqb_eq in Hname. subst nm.
    exists attrs, cs. split; [exact Hin|].
    cbn in Hattr. rewrite andb_true_r in Hattr.
    destruct (Py.dict_get attrs "classid") as [raw|]; [|discriminate].
    apply String.eqb_eq in Hattr. subst raw. reflexivity.
  - intros [attrs [cs [Hin Hattr]]]. apply Nat.ltb_lt.
    assert (Hf : In (Tag "bestaccessright" attrs cs)
                   (filter (fun n => Soup.name_matches n (Some "bestaccessright")
                                     && forallb (Soup.attr_matches n)
                                          [("classid", "OPEN")])
                      (Soup.descendants r))).
    { apply filter_In. split; [exact Hin|]. cbn. rewrite Hattr. reflexivity. }
    destruct (filter _ (Soup.descendants r)); [contradiction | cbn; lia].
Qed.

(** X26.  When the entries before it are under other titles,
    [openaire_title_search] answers with the address, the authors and the
    open-access flag of the first entry whose title matches the queried
    one; the flag is true exactly when that entry holds a
    [bestaccessright] element whose [classid] is [OPEN]. *)
Theorem openaire_first_match_wins (w : world) (title response : string)
    (pre post : list node) (r : node) :
  requests_get_text w (openaire_get_api_url w title) = Return response ->
  Soup.find_all (html_parser w response) (Some "oaf:result") []
  = pre ++ r :: post ->
  Forall (other_title title) pre ->
  title_match (Some title) (get_xml_node_value r "title") = Return true ->
  exists open_flag,
    openaire_title_search w title
    = ([HttpGet (openaire_get_api_url w title)],
       Return [("url", Py.of_option (get_xml_node_value r "url"));
               ("authors",
                PList (map (fun a => PStr (Soup.text a))
                           (Soup.find_all r (Some "creator") [])));
               ("open", PBool open_flag)])
    /\ (open_flag = true <->
        exists attrs cs,
          In (Tag "bestaccessright" attrs cs) (Soup.descendants r)
          /\ Py.dict_get attrs "classid" = Some "OPEN").
Proof.
  intros Hget Hlist Hpre Hr.
  eexists. split; [|apply open_flag_spec].
  unfold openaire_title_search, http_get_text, emit, lift.
  cbn [bind io_monad]. rewrite Hget. cbn [app].
  rewrite Hlist, (openaire_loop_first_match title pre post r [] Hpre Hr).
  reflexivity.
Qed.

Lemma openaire_first_match_wins_witness :
  openaire_title_search (fixed_world openaire_two_matches empty_document PNone)
    "Deal or no deal"
  = ([HttpGet "http://api.openaire.eu/search/publications?title=Deal or no deal"],
     Return [("url", PStr "http://example.org/1");
             ("authors", PList [PStr "Smith J"; PStr "Doe A"]);
             ("open", PBool true)]).
Proof.
  assert (Hpre : Forall (other_title "Deal or no deal")
                   [openaire_entry "Another paper" "http://example.org/0"
                      ["Roe R"] ["OPEN"]]).
  { constructor; [reflexivity | constructor]. }
  destruct (openaire_first_match_wins
              (fixed_world openaire_two_matches empty_document PNone)
              "Deal or no deal" "<response>"
              [openaire_entry "Another paper" "http://example.org/0"
                 ["Roe R"] ["OPEN"]]
              [openaire_entry "deal or no deal" "http://example.org/2"
                 ["Poe E"] ["RESTRICTED"]]
              (openaire_entry "Deal or No Deal?" "http://example.org/1"
                 ["Smith J"; "Doe A"] ["CLOSED"; "OPEN"])
              eq_refl eq_refl Hpre eq_refl)
    as [flag [E [_ F]]].
  rewrite E. repeat f_equal. apply F.
  exists [("classid", "OPEN")], []. split; [|reflexivity].
  vm_compute. do 9 right. left. reflexivity.
Defined.

Lemma europepmc_loop_app (title : string) (l1 l2 : list node) :
  forall meta,
    europepmc_loop title (l1 ++ l2) meta
    = (meta' <- europepmc_loop title l1 meta ;; europepmc_loop title l2 meta').
Proof.
  induction l1 as [|x r IH]; intros meta; cbn [app europepmc_loop];
    [reflexivity|].
  destruct (title_match (Some title) (get_xml_node_value x "title")) as [[|]|e];
    cbn [bind result_monad]; [|apply IH|reflexivity].
  destruct (europepmc_fill x meta) as [m|e]; cbn [bind result_monad];
    [apply IH | reflexivity].
Qed.

(** What one matching entry leaves in the record: its own [doi], [pmcid],
    [journal] and [authors], and its own PDF address if it has a PDF;
    otherwise the PDF address that was there before. *)
Lemma europepmc_fill_fields (r : node) (meta : list (string * pyval))
    (authors : string) :
  get_xml_node_value r "authorstring" = Some authors ->
  exists meta',
    europepmc_fill r meta = Return meta'
    /\ Py.dict_get meta' "doi" = Some (Py.of_option (get_xml_node_value r "doi"))
    /\ Py.dict_get meta' "pmcid"
       = Some (Py.of_option (get_xml_node_value r "pmcid"))
    /\ Py.dict_get meta' "journal"
       = Some (Py.of_option (get_xml_node_value r "journaltitle"))
    /\ Py.dict_get meta' "authors"
       = Some (PList (map PStr (PyStr.split_comma_space []
                                  (list_ascii_of_string authors))))
    /\ Py.dict_get meta' "pdf"
       = if Py.opt_eqb (get_xml_node_value r "haspdf") "Y"
         then Some (PStr ("http://europepmc.org/articles/"
                          ++ Py.format_arg (get_xml_node_value r "pmcid")
                          ++ "?pdf=render"))
         else Py.dict_get meta "pdf".
Proof.
  intros Ha. unfold europepmc_fill. rewrite Ha. cbn [bind result_monad].
  destruct (Py.opt_eqb (get_xml_node_value r "haspdf") "Y");
    eexists; (split; [reflexivity|]);
    rewrite !dict_get_set; repeat split; reflexivity.
Qed.

(** The last matching entry decides [doi], [pmcid], [journal] and
    [authors]; the PDF address is the last matching entry's only if that
    entry has a PDF, and otherwise whatever the entries before it left. *)
Lemma europepmc_last_match (title authors : string) (pre post : list node)
    (r : node) (before : list (string * pyval)) :
  europepmc_loop title pre [] = Return before ->
  title_match (Some title) (get_xml_node_value r "title") = Return true ->
  get_xml_node_value r "authorstring" = Some authors ->
  Forall (other_title title) post ->
  exists meta,
    europepmc_loop title (pre ++ r :: post) [] = Return meta
    /\ Py.dict_get meta "doi" = Some (Py.of_option (get_xml_node_value r "doi"))
    /\ Py.dict_get meta "pmcid"
       = Some (Py.of_option (get_xml_node_value r "pmcid"))
    /\ Py.dict_get meta "journal"
       = Some (Py.of_option (get_xml_node_value r "journaltitle"))
    /\ Py.dict_get meta "authors"
       = Some (PList (map PStr (PyStr.split_comma_space []
                                  (list_ascii_of_string authors))))
    /\ Py.dict_get meta "pdf"
       = if Py.opt_eqb (get_xml_node_value r "haspdf") "Y"
         then Some (PStr ("http://europepmc.org/articles/"
                          ++ Py.format_arg (get_xml_node_value r "pmcid")
                          ++ "?pdf=render"))
         else Py.dict_get before "pdf".
Proof.
  intros Hpre Hr Ha Hpost.
  destruct (europepmc_fill_fields r before authors Ha) as [meta [E F]].
  exists meta. split; [|exact F].
  rewrite europepmc_loop_app, Hpre. cbn [bind result_monad europepmc_loop].
  rewrite Hr. cbn [bind result_monad]. rewrite E. cbn [bind result_monad].
  apply europepmc_loop_no_match. exact Hpost.
Qed.

(** C6.  With two entries under the queried title, the first with a PDF
    and the last without, [europepmc_title_search] answers with the [doi],
    [pmcid], [journal] and [authors] of the last, and with the PDF address
    of the first. *)
Theorem europepmc_keeps_earlier_pdf :
  europepmc_title_search (fixed_world europepmc_two_matches empty_document PNone)
    "Deal or no deal"
  = ([HttpGet ("https://www.ebi.ac.uk/europepmc/webservices/rest/search?query="
               ++ "Deal or no deal")],
     Return [("doi", PStr "10.1000/second");
             ("pmcid", PStr "PMC2");
             ("journal", PStr "Food Policy");
             ("authors", PList [PStr "Poe E"]);
             ("pdf", PStr "http://europepmc.org/articles/PMC1?pdf=render")]).
Proof. vm_compute. reflexivity. Qed.


(** * Further properties *)

(** ** Title normalisation *)

Lemma list_ascii_of_string_app (a b : string) :
  list_ascii_of_string (a ++ b)
  = (list_ascii_of_string a ++ list_ascii_of_string b)%list.
Proof. induction a as [|c a IH]; cbn; [|rewrite IH]; reflexivity. Qed.

Lemma string_of_list_ascii_app (a b : list ascii) :
  string_of_list_ascii (a ++ b)
  = (string_of_list_ascii a ++ string_of_list_ascii b)%string.
Proof. induction a as [|c a IH]; cbn; [|rewrite IH]; reflexivity. Qed.

Lemma list_ascii_length (s : string) :
  List.length (list_ascii_of_string s) = String.length s.
Proof. induction s as [|c s IH]; cbn; [|rewrite IH]; reflexivity. Qed.

Lemma lstrip_map_lower (s : list ascii) :
  PyStr.lstrip_chars title_strip_chars (map PyStr.lower_char s)
  = map PyStr.lower_char (PyStr.lstrip_chars title_strip_chars s).
Proof.
  induction s as [|c r IH]; cbn [map PyStr.lstrip_chars]; [reflexivity|].
  rewrite lower_char_strip.
  destruct (PyStr.mem c title_strip_chars); [exact IH | reflexivity].
Qed.

Lemma strip_map_lower (s : list ascii) :
  PyStr.strip_chars title_strip_chars (map PyStr.lower_char s)
  = map PyStr.lower_char (PyStr.strip_chars title_strip_chars s).
Proof.
  unfold PyStr.strip_chars, PyStr.rstrip_chars.
  rewrite lstrip_map_lower, <- map_rev, lstrip_map_lower, map_rev. reflexivity.
Qed.

Lemma collapse_map_lower (b : bool) (s : list ascii) :
  PyStr.collapse_from b (map PyStr.lower_char s)
  = map PyStr.lower_char (PyStr.collapse_from b s).
Proof.
  revert b. induction s as [|c r IH]; intros b;
    cbn [map PyStr.collapse_from]; [reflexivity|].
  rewrite lower_char_isspace.
  destruct (PyStr.isspace c); [destruct b|]; cbn [map];
    rewrite ?IH, ?lower_char_space; reflexivity.
Qed.

Lemma clean_title_str_lower (s : string) :
  clean_title_str (PyStr.lower s) = clean_title_str s.
Proof.
  unfold clean_title_str, PyStr.lower, PyStr.sub_spaces.
  rewrite list_ascii_of_string_of_list_ascii.
  rewrite strip_map_lower, collapse_map_lower, map_map. f_equal.
  apply map_ext. intros c. apply lower_char_idempotent.
Qed.

(** X1.  On two strings [title_match] always answers, and its answer is
    that of an equivalence: every title matches itself, the order of the
    two titles does not matter, and two titles that match a third match
    each other. *)
Theorem title_match_equivalence (a b c : string) :
  (exists m, title_match (Some a) (Some b) = Return m)
  /\ title_match (Some a) (Some a) = Return true
  /\ title_match (Some a) (Some b) = title_match (Some b) (Some a)
  /\ (title_match (Some a) (Some b) = Return true ->
      title_match (Some b) (Some c) = Return true ->
      title_match (Some a) (Some c) = Return true).
Proof.
  cbn. split; [eexists; reflexivity|].
  split; [rewrite String.eqb_refl; reflexivity|].
  split; [rewrite String.eqb_sym; reflexivity|].
  intros H1 H2. injection H1 as H1. injection H2 as H2.
  apply String.eqb_eq in H1, H2. rewrite H1, H2, String.eqb_refl. reflexivity.
Qed.

Lemma title_match_equivalence_witness :
  title_match (Some "Deal or No Deal?") (Some "deal  or no deal.") = Return true.
Proof.
  apply (proj2 (proj2 (proj2
    (title_match_equivalence "Deal or No Deal?" "DEAL OR NO DEAL"
       "deal  or no deal."))));
    reflexivity.
Defined.

(** X2.  The case of the letters does not count: lower-casing either
    title beforehand leaves the answer of [title_match] as it is. *)
Theorem title_match_case_insensitive (a b : string) :
  title_match (Some (PyStr.lower a)) (Some b) = title_match (Some a) (Some b)
  /\ title_match (Some a) (Some (PyStr.lower b)) = title_match (Some a) (Some b)
  /\ title_match (Some (PyStr.lower a)) (Some a) = Return true.
Proof.
  cbn. rewrite !clean_title_str_lower, String.eqb_refl. repeat split.
Qed.

Section StripMore.

Variable chars : list ascii.

Let all_in (s : list ascii) : bool := forallb (fun c => PyStr.mem c chars) s.

Lemma lstrip_app_all (p x : list ascii) :
  all_in p = true ->
  PyStr.lstrip_chars chars (p ++ x) = PyStr.lstrip_chars chars x.
Proof.
  induction p as [|c r IH]; cbn [app PyStr.lstrip_chars]; [reflexivity|].
  unfold all_in. cbn [forallb]. intros H. apply andb_prop in H.
  destruct H as [Hc Hr]. rewrite Hc. apply IH. exact Hr.
Qed.

Lemma lstrip_all (q : list ascii) :
  all_in q = true -> PyStr.lstrip_chars chars q = [].
Proof.
  intros H. rewrite <- (app_nil_r q). rewrite (lstrip_app_all q [] H). reflexivity.
Qed.

Lemma lstrip_app (x q : list ascii) :
  PyStr.lstrip_chars chars (x ++ q)
  = match PyStr.lstrip_chars chars x with
    | [] => PyStr.lstrip_chars chars q
    | _ :: _ => PyStr.lstrip_chars chars x ++ q
    end.
Proof.
  induction x as [|c r IH]; cbn [app PyStr.lstrip_chars]; [reflexivity|].
  destruct (PyStr.mem c chars); [exact IH | reflexivity].
Qed.

Lemma all_in_rev (q : list ascii) : all_in q = true -> all_in (rev q) = true.
Proof.
  unfold all_in. rewrite !forallb_forall. intros H c Hc.
  apply H. apply in_rev. exact Hc.
Qed.

(** Characters of [chars] put before or after a string are stripped
    with the rest. *)
Lemma strip_app_all (p x q : list ascii) :
  all_in p = true -> all_in q = true ->
  PyStr.strip_chars chars (p ++ x ++ q) = PyStr.strip_chars chars x.
Proof.
  intros Hp Hq. unfold PyStr.strip_chars.
  rewrite (lstrip_app_all p _ Hp), lstrip_app, (lstrip_all q Hq).
  destruct (PyStr.lstrip_chars chars x) as [|c r]; [reflexivity|].
  unfold PyStr.rstrip_chars. rewrite rev_app_distr.
  rewrite (lstrip_app_all (rev q) _ (all_in_rev q Hq)). reflexivity.
Qed.

End StripMore.

(** X3.  Punctuation and spaces around a title do not count: putting any
    of the characters space, double quote, apostrophe, question mark,
    exclamation mark, full stop and comma before or after a title leaves
    its cleaned form as it is. *)
Theorem clean_title_ignores_outer_punctuation (p s q : string) :
  only_strip_chars p = true -> only_strip_chars q = true ->
  clean_title_str (p ++ s ++ q) = clean_title_str s.
Proof.
  unfold only_strip_chars, clean_title_str. intros Hp Hq.
  rewrite !list_ascii_of_string_app.
  rewrite (strip_app_all title_strip_chars _ _ _ Hp Hq). reflexivity.
Qed.

Lemma clean_title_ignores_outer_punctuation_witness :
  clean_title_str (" '" ++ "Deal or No Deal" ++ "?!. ")
  = clean_title_str "Deal or No Deal".
Proof.
  apply clean_title_ignores_outer_punctuation; reflexivity.
Defined.


Lemma strip_length (chars s : list ascii) :
  List.length (PyStr.strip_chars chars s) <= List.length s.
Proof.
  unfold PyStr.strip_chars.
  pose proof (rstrip_length chars (PyStr.lstrip_chars chars s)).
  pose proof (lstrip_length chars s). lia.
Qed.


(** ** EuropePMC and OpenAIRE, further *)

Lemma split_comma_space_cons2 (cur : list ascii) (c c' : ascii) (r' : list ascii) :
  PyStr.split_comma_space cur (c :: c' :: r')
  = if Ascii.eqb c "," && Ascii.eqb c' " "
    then string_of_list_ascii (rev cur) :: PyStr.split_comma_space [] r'
    else PyStr.split_comma_space (c :: cur) (c' :: r').
Proof. reflexivity. Qed.

Lemma split_comma_space_spec (n : nat) :
  forall s cur,
    List.length s <= n ->
    PyStr.split_comma_space cur s <> []
    /\ String.concat ", " (PyStr.split_comma_space cur s)
       = string_of_list_ascii (rev cur ++ s).
Proof.
  induction n as [|n IH]; intros s cur Hlen.
  - destruct s; [|cbn in Hlen; lia].
    cbn. rewrite app_nil_r. split; [discriminate | reflexivity].
  - destruct s as [|c [|c' r']].
    + cbn. rewrite app_nil_r. split; [discriminate | reflexivity].
    + cbn. rewrite ?app_nil_r. split; [discriminate | reflexivity].
    + rewrite split_comma_space_cons2.
      destruct (Ascii.eqb c "," && Ascii.eqb c' " ") eqn:E.
      * apply andb_prop in E. destruct E as [E1 E2].
        apply Ascii.eqb_eq in E1, E2. subst c c'.
        destruct (IH r' [] ltac:(cbn in Hlen; lia)) as [Hne Hcat].
        split; [discriminate|].
        destruct (PyStr.split_comma_space [] r') as [|y l]; [contradiction|].
        cbn [String.concat]. cbn [String.concat] in Hcat.
        rewrite Hcat. cbn [rev app]. rewrite string_of_list_ascii_app.
        reflexivity.
      * destruct (IH (c' :: r') (c :: cur) ltac:(cbn in Hlen |- *; lia))
          as [Hne Hcat].
        split; [exact Hne|]. rewrite Hcat. cbn [rev]. rewrite <- app_assoc.
        reflexivity.
Qed.

Lemma str_contains_comma_space (s : list ascii) :
  str_contains (list_ascii_of_string ", ") s = has_comma_space s.
Proof.
  change (list_ascii_of_string ", ") with [","%char; " "%char].
  induction s as [|a r IH]; [reflexivity|].
  cbn [str_contains]. rewrite IH.
  destruct r as [|b r'].
  - cbn. rewrite andb_false_r. reflexivity.
  - cbn [starts_with has_comma_space].
    rewrite andb_true_r, (Ascii.eqb_sym "," a), (Ascii.eqb_sym " " b).
    reflexivity.
Qed.

Lemma has_comma_space_app_l (l m : list ascii) :
  has_comma_space l = true -> has_comma_space (l ++ m) = true.
Proof.
  induction l as [|x l IH]; [discriminate|].
  destruct l as [|y l']; [discriminate|].
  change (has_comma_space (x :: y :: l'))
    with ((Ascii.eqb x "," && Ascii.eqb y " ") || has_comma_space (y :: l')).
  change (has_comma_space ((x :: y :: l') ++ m))
    with ((Ascii.eqb x "," && Ascii.eqb y " ")
          || has_comma_space ((y :: l') ++ m)).
  intros Hh. apply orb_prop in Hh. destruct Hh as [Hh|Hh].
  - rewrite Hh. reflexivity.
  - rewrite (IH Hh). apply orb_true_r.
Qed.

Lemma has_comma_space_snoc2 (l : list ascii) (a b : ascii) :
  has_comma_space (l ++ [a; b])
  = has_comma_space (l ++ [a]) || (Ascii.eqb a "," && Ascii.eqb b " ").
Proof.
  induction l as [|x l IH].
  - cbn. rewrite orb_false_r. reflexivity.
  - destruct l as [|y l'].
    + cbn. rewrite !orb_false_r. reflexivity.
    + change (has_comma_space ((x :: y :: l') ++ [a; b]))
        with ((Ascii.eqb x "," && Ascii.eqb y " ")
              || has_comma_space ((y :: l') ++ [a; b])).
      change (has_comma_space ((x :: y :: l') ++ [a]))
        with ((Ascii.eqb x "," && Ascii.eqb y " ")
              || has_comma_space ((y :: l') ++ [a])).
      rewrite IH, orb_assoc. reflexivity.
Qed.

(** No piece that [split_comma_space] cuts holds the separator. *)
Lemma split_comma_space_pieces (n : nat) :
  forall s cur,
    List.length s <= n ->
    has_comma_space (rev cur ++ firstn 1 s) = false ->
    Forall (fun p => has_comma_space (list_ascii_of_string p) = false)
           (PyStr.split_comma_space cur s).
Proof.
  induction n as [|n IH]; intros s cur Hlen Hinv.
  - destruct s; [|cbn in Hlen; lia].
    cbn in *. rewrite app_nil_r in Hinv.
    constructor; [|constructor].
    rewrite list_ascii_of_string_of_list_ascii. exact Hinv.
  - destruct s as [|c [|c' r']].
    + cbn in *. rewrite app_nil_r in Hinv.
      constructor; [|constructor].
      rewrite list_ascii_of_string_of_list_ascii. exact Hinv.
    + cbn in *. constructor; [|constructor].
      rewrite list_ascii_of_string_of_list_ascii. exact Hinv.
    + rewrite split_comma_space_cons2. cbn [firstn] in Hinv.
      destruct (Ascii.eqb c "," && Ascii.eqb c' " ") eqn:E.
      * constructor.
        -- rewrite list_ascii_of_string_of_list_ascii.
           destruct (has_comma_space (rev cur)) eqn:Hc; [|reflexivity].
           rewrite (has_comma_space_app_l _ [c] Hc) in Hinv. discriminate.
        -- apply IH; [cbn in Hlen; lia|].
           destruct r'; reflexivity.
      * apply IH; [cbn in Hlen |- *; lia|].
        cbn [rev firstn]. rewrite <- app_assoc. cbn [app].
        rewrite has_comma_space_snoc2, Hinv, E. reflexivity.
Qed.

(** X5.  The authors of a EuropePMC entry are the pieces of its author
    string between the separators comma-space: there is at least one
    piece, no piece holds the separator, and the pieces joined by the
    separator give the author string back.  An entry without an author
    string raises [AttributeError]. *)
Theorem europepmc_authors_round_trip (r : node) (meta : list (string * pyval)) :
  (forall authors,
     get_xml_node_value r "authorstring" = Some authors ->
     exists meta' pieces,
       europepmc_fill r meta = Return meta'
       /\ Py.dict_get meta' "authors" = Some (PList (map PStr pieces))
       /\ pieces <> []
       /\ String.concat ", " pieces = authors
       /\ Forall (fun p => str_contains (list_ascii_of_string ", ")
                             (list_ascii_of_string p) = false) pieces)
  /\ (get_xml_node_value r "authorstring" = None ->
      europepmc_fill r meta = Raise AttributeError).
Proof.
  split.
  - intros authors Ha.
    destruct (europepmc_fill_fields r meta authors Ha)
      as [meta' [E [_ [_ [_ [A _]]]]]].
    destruct (split_comma_space_spec _ (list_ascii_of_string authors) []
                (le_n _)) as [Hne Hcat].
    exists meta', (PyStr.split_comma_space [] (list_ascii_of_string authors)).
    split; [exact E|]. split; [exact A|]. split; [exact Hne|]. split.
    + rewrite Hcat. cbn [rev app]. apply string_of_list_ascii_of_string.
    + eapply Forall_impl;
        [|apply (split_comma_space_pieces _ (list_ascii_of_string authors) []
                   (le_n _))].
      * intros p Hp. rewrite str_contains_comma_space. exact Hp.
      * destruct (list_ascii_of_string authors); reflexivity.
  - intros Hnone. unfold europepmc_fill. rewrite Hnone. reflexivity.
Qed.

Lemma europepmc_authors_round_trip_witness :
  exists meta' pieces,
    europepmc_fill
      (europepmc_entry "Deal or No Deal?" "10.1000/first" "PMC1" "Appetite"
         "Smith J, Doe A" "Y") [] = Return meta'
    /\ Py.dict_get meta' "authors" = Some (PList (map PStr pieces))
    /\ pieces <> []
    /\ String.concat ", " pieces = "Smith J, Doe A"
    /\ Forall (fun p => str_contains (list_ascii_of_string ", ")
                          (list_ascii_of_string p) = false) pieces.
Proof.
  apply (proj1 (europepmc_authors_round_trip _ [])). reflexivity.
Defined.

Lemma dict_set_nonempty {V} (d : list (string * V)) (k : string) (v : V) :
  Py.dict_set d k v <> [].
Proof.
  destruct d as [|[k0 v0] r]; cbn; [discriminate|].
  destruct (String.eqb k k0); discriminate.
Qed.

Lemma europepmc_fill_nonempty (r : node) (meta meta' : list (string * pyval)) :
  europepmc_fill r meta = Return meta' -> meta' <> [].
Proof.
  unfold europepmc_fill.
  destruct (get_xml_node_value r "authorstring"); [|discriminate].
  cbn [bind result_monad].
  destruct (Py.opt_eqb (get_xml_node_value r "haspdf") "Y");
    intros E; injection E as <-; apply dict_set_nonempty.
Qed.

Lemma europepmc_loop_empty (title : string) (l : list node) :
  forall meta out,
    europepmc_loop title l meta = Return out ->
    (out = [] <-> meta = [] /\ Forall (other_title title) l).
Proof.
  induction l as [|x l IH]; intros meta out; cbn [europepmc_loop].
  - intros E. injection E as <-. split; [intros ->; split; constructor|tauto].
  - destruct (title_match (Some title) (get_xml_node_value x "title"))
      as [[|]|e] eqn:T; cbn [bind result_monad]; [| |discriminate].
    + destruct (europepmc_fill x meta) as [m|e] eqn:F; [|discriminate].
      cbn [bind result_monad]. intros E.
      pose proof (europepmc_fill_nonempty x meta m F) as Hm.
      rewrite (IH m out E). split.
      * intros [Hm' _]. contradiction.
      * intros [_ Hall]. inversion Hall as [|? ? Hx _]. subst.
        unfold other_title in Hx. congruence.
    + intros E. rewrite (IH meta out E). split.
      * intros [Hm Hall]. split; [exact Hm|]. constructor; [exact T | exact Hall].
      * intros [Hm Hall]. inversion Hall. subst. split; auto.
Qed.

Lemma openaire_loop_empty (title : string) (l : list node) :
  forall out,
    openaire_loop title l [] = Return out ->
    (out = [] <-> Forall (other_title title) l).
Proof.
  induction l as [|x l IH]; intros out; cbn [openaire_loop].
  - intros E. injection E as <-. split; [constructor | reflexivity].
  - destruct (title_match (Some title) (get_xml_node_value x "title"))
      as [[|]|e] eqn:T; cbn [bind result_monad]; [| |discriminate].
    + intros E. injection E as <-. split.
      * intros E. exfalso. revert E. apply dict_set_nonempty.
      * intros Hall. inversion Hall as [|? ? Hx _]. subst.
        unfold other_title in Hx. congruence.
    + intros E. rewrite (IH out E). split.
      * intros Hall. constructor; [exact T | exact Hall].
      * intros Hall. inversion Hall. assumption.
Qed.

(** X6.  When the EuropePMC or the OpenAIRE search returns, the record
    it returns is empty exactly when every entry of the response is under
    another title than the queried one. *)
Theorem empty_record_iff_no_match (w : world) (title response : string) :
  (requests_get_text w (europepmc_get_api_url w title) = Return response ->
   forall meta,
     snd (europepmc_title_search w title) = Return meta ->
     (meta = [] <->
      Forall (other_title title)
             (Soup.find_all (html_parser w response) (Some "result") [])))
  /\ (requests_get_text w (openaire_get_api_url w title) = Return response ->
      forall meta,
        snd (openaire_title_search w title) = Return meta ->
        (meta = [] <->
         Forall (other_title title)
                (Soup.find_all (html_parser w response) (Some "oaf:result") []))).
Proof.
  split; intros Hget meta.
  - unfold europepmc_title_search, http_get_text, emit, lift.
    cbn [bind io_monad]. rewrite Hget. cbn [snd].
    destruct (europepmc_loop title _ []) as [m|e] eqn:E; cbn [snd];
      [|discriminate].
    intros Hm. injection Hm as <-.
    rewrite (europepmc_loop_empty title _ [] m E). tauto.
  - unfold openaire_title_search, http_get_text, emit, lift.
    cbn [bind io_monad]. rewrite Hget. cbn [snd].
    destruct (openaire_loop title _ []) as [m|e] eqn:E; cbn [snd];
      [|discriminate].
    intros Hm. injection Hm as <-.
    apply (openaire_loop_empty title _ m E).
Qed.

Lemma empty_record_iff_no_match_witness :
  ~ Forall (other_title "Deal or no deal")
      (Soup.find_all europepmc_two_matches (Some "result") []).
Proof.
  intros Hall.
  assert (E : snd (europepmc_title_search
                     (fixed_world europepmc_two_matches empty_document PNone)
                     "Deal or no deal")
              = Return [("doi", PStr "10.1000/second"); ("pmcid", PStr "PMC2");
                        ("journal", PStr "Food Policy");
                        ("authors", PList [PStr "Poe E"]);
                        ("pdf", PStr "http://europepmc.org/articles/PMC1?pdf=render")])
    by reflexivity.
  apply (proj1 (empty_record_iff_no_match
                  (fixed_world europepmc_two_matches empty_document PNone)
                  "Deal or no deal" "<response>") eq_refl _) in E.
  apply (proj2 E) in Hall. discriminate.
Defined.

Lemma dict_set_keys {V} (d : list (string * V)) (k : string) (v : V) :
  map fst (Py.dict_set d k v) = add_key (map fst d) k.
Proof.
  unfold add_key, memb.
  induction d as [|[k0 v0] r IH]; cbn [Py.dict_set map fst existsb app];
    [reflexivity|].
  destruct (String.eqb k k0); cbn [map fst orb]; [reflexivity|].
  rewrite IH. destruct (existsb (String.eqb k) (map fst r)); reflexivity.
Qed.

Lemma europepmc_fill_keys (r : node) (meta meta' : list (string * pyval)) :
  europepmc_fill r meta = Return meta' ->
  map fst meta'
  = let ks := add_key (add_key (add_key (add_key (map fst meta) "doi") "pmcid")
                         "journal") "authors" in
    if Py.opt_eqb (get_xml_node_value r "haspdf") "Y" then add_key ks "pdf" else ks.
Proof.
  unfold europepmc_fill.
  destruct (get_xml_node_value r "authorstring"); [|discriminate].
  cbn [bind result_monad].
  destruct (Py.opt_eqb (get_xml_node_value r "haspdf") "Y");
    intros E; injection E as <-; rewrite !dict_set_keys; reflexivity.
Qed.

Lemma europepmc_loop_keys (title : string) (l : list node) :
  forall meta out,
    europepmc_keys (map fst meta) ->
    europepmc_loop title l meta = Return out ->
    europepmc_keys (map fst out).
Proof.
  induction l as [|x l IH]; intros meta out Hk; cbn [europepmc_loop].
  - intros E. injection E as <-. exact Hk.
  - destruct (title_match (Some title) (get_xml_node_value x "title"))
      as [[|]|e]; cbn [bind result_monad]; [| |discriminate].
    + destruct (europepmc_fill x meta) as [m|e] eqn:F; [|discriminate].
      cbn [bind result_monad]. apply IH.
      rewrite (europepmc_fill_keys x meta m F).
      unfold europepmc_keys.
      destruct Hk as [Hk|[Hk|Hk]]; rewrite Hk;
        destruct (Py.opt_eqb (get_xml_node_value x "haspdf") "Y");
        vm_compute; auto.
    + apply IH. exact Hk.
Qed.

Lemma openaire_loop_keys (title : string) (l : list node) :
  forall out,
    openaire_loop title l [] = Return out -> openaire_keys (map fst out).
Proof.
  induction l as [|x l IH]; intros out; cbn [openaire_loop].
  - intros E. injection E as <-. left. reflexivity.
  - destruct (title_match (Some title) (get_xml_node_value x "title"))
      as [[|]|e]; cbn [bind result_monad]; [| |discriminate].
    + intros E. injection E as <-. right. reflexivity.
    + apply IH.
Qed.

Lemma io_lift_after_get {A} (w : world) (url : string)
    (k : string -> result A) (a : A) :
  snd (response <- http_get_text w url ;; lift (k response)) = Return a ->
  exists response,
    requests_get_text w url = Return response /\ k response = Return a.
Proof.
  unfold http_get_text, emit, lift. cbn [bind io_monad].
  destruct (requests_get_text w url) as [response|e]; cbn [snd].
  - destruct (k response) as [x|e] eqn:E; cbn [snd]; [|discriminate].
    intros H. injection H as <-. exists response. split; [reflexivity | exact E].
  - discriminate.
Qed.

(** X7.  A record that the EuropePMC search returns is empty or has the
    keys [doi], [pmcid], [journal], [authors], in this order, followed or
    not by [pdf]; a record that the OpenAIRE search returns is empty or has
    the keys [url], [authors], [open]. *)
Theorem search_record_keys (w : world) (title : string)
    (meta : list (string * pyval)) :
  (snd (europepmc_title_search w title) = Return meta ->
   europepmc_keys (map fst meta))
  /\ (snd (openaire_title_search w title) = Return meta ->
      openaire_keys (map fst meta)).
Proof.
  split; intros E.
  - apply io_lift_after_get in E. destruct E as [response [_ E]].
    eapply (europepmc_loop_keys title); [|exact E]. left. reflexivity.
  - apply io_lift_after_get in E. destruct E as [response [_ E]].
    eapply (openaire_loop_keys title). exact E.
Qed.

Lemma search_record_keys_witness :
  europepmc_keys
    (map fst [("doi", PStr "10.1000/second"); ("pmcid", PStr "PMC2");
              ("journal", PStr "Food Policy"); ("authors", PList [PStr "Poe E"]);
              ("pdf", PStr "http://europepmc.org/articles/PMC1?pdf=render")])
  /\ openaire_keys
       (map fst [("url", PStr "http://example.org/1");
                 ("authors", PList [PStr "Smith J"; PStr "Doe A"]);
                 ("open", PBool true)]).
Proof.
  split.
  - apply (proj1 (search_record_keys
                    (fixed_world europepmc_two_matches empty_document PNone)
                    "Deal or no deal" _)).
    reflexivity.
  - apply (proj2 (search_record_keys
                    (fixed_world openaire_two_matches empty_document PNone)
                    "Deal or no deal" _)).
    reflexivity.
Defined.

Lemma europepmc_fill_pdf (r : node) (meta meta' : list (string * pyval)) :
  europepmc_fill r meta = Return meta' ->
  Py.dict_get meta' "pdf"
  = if Py.opt_eqb (get_xml_node_value r "haspdf") "Y"
    then Some (PStr (europepmc_pdf_url r))
    else Py.dict_get meta "pdf".
Proof.
  intros E.
  destruct (get_xml_node_value r "authorstring") as [a|] eqn:Ha.
  - destruct (europepmc_fill_fields r meta a Ha) as [m [E' [_ [_ [_ [_ P]]]]]].
    rewrite E in E'. injection E' as <-. exact P.
  - unfold europepmc_fill in E. rewrite Ha in E. discriminate.
Qed.

Lemma europepmc_loop_pdf (title : string) (l : list node) :
  forall meta out v,
    europepmc_loop title l meta = Return out ->
    Py.dict_get out "pdf" = Some v ->
    Py.dict_get meta "pdf" = Some v
    \/ exists r,
         In r l /\ same_title title r
         /\ Py.opt_eqb (get_xml_node_value r "haspdf") "Y" = true
         /\ v = PStr (europepmc_pdf_url r).
Proof.
  induction l as [|x l IH]; intros meta out v; cbn [europepmc_loop].
  - intros E. injection E as <-. auto.
  - destruct (title_match (Some title) (get_xml_node_value x "title"))
      as [[|]|e] eqn:T; cbn [bind result_monad]; [| |discriminate].
    + destruct (europepmc_fill x meta) as [m|e] eqn:F; [|discriminate].
      cbn [bind result_monad]. intros E Hv.
      destruct (IH m out v E Hv) as [Hm|[r [Hin Hr]]].
      * rewrite (europepmc_fill_pdf x meta m F) in Hm.
        destruct (Py.opt_eqb (get_xml_node_value x "haspdf") "Y") eqn:P.
        -- right. exists x. injection Hm as <-.
           split; [left; reflexivity|]. split; [exact T|]. split; [exact P|].
           reflexivity.
        -- left. exact Hm.
      * right. exists r. split; [right; exact Hin | exact Hr].
    + intros E Hv. destruct (IH meta out v E Hv) as [Hm|[r [Hin Hr]]].
      * left. exact Hm.
      * right. exists r. split; [right; exact Hin | exact Hr].
Qed.

(** X8.  A PDF address in the record of a EuropePMC search is always the
    one built from the [pmcid] of some entry of the response that is under
    the queried title and says that it has a PDF. *)
Theorem europepmc_pdf_provenance (w : world) (title : string)
    (meta : list (string * pyval)) (v : pyval) :
  snd (europepmc_title_search w title) = Return meta ->
  Py.dict_get meta "pdf" = Some v ->
  exists response r,
    requests_get_text w (europepmc_get_api_url w title) = Return response
    /\ In r (Soup.find_all (html_parser w response) (Some "result") [])
    /\ same_title title r
    /\ Py.opt_eqb (get_xml_node_value r "haspdf") "Y" = true
    /\ v = PStr (europepmc_pdf_url r).
Proof.
  intros E Hv. apply io_lift_after_get in E. destruct E as [response [Hget E]].
  destruct (europepmc_loop_pdf title _ _ _ v E Hv) as [H0|[r Hr]];
    [discriminate|].
  exists response, r. split; [exact Hget | exact Hr].
Qed.

Lemma europepmc_pdf_provenance_witness :
  exists response r,
    requests_get_text (fixed_world europepmc_two_matches empty_document PNone)
      (europepmc_get_api_url
         (fixed_world europepmc_two_matches empty_document PNone)
         "Deal or no deal") = Return response
    /\ In r (Soup.find_all
               (html_parser (fixed_world europepmc_two_matches empty_document PNone)
                  response) (Some "result") [])
    /\ same_title "Deal or no deal" r
    /\ Py.opt_eqb (get_xml_node_value r "haspdf") "Y" = true
    /\ PStr "http://europepmc.org/articles/PMC1?pdf=render"
       = PStr (europepmc_pdf_url r).
Proof.
  apply (europepmc_pdf_provenance
           (fixed_world europepmc_two_matches empty_document PNone)
           "Deal or no deal"
           [("doi", PStr "10.1000/second"); ("pmcid", PStr "PMC2");
            ("journal", PStr "Food Policy"); ("authors", PList [PStr "Poe E"]);
            ("pdf", PStr "http://europepmc.org/articles/PMC1?pdf=render")]);
    reflexivity.
Defined.

(** ** RePEc, further *)

(** X9.  [repec_get_meta] never raises.  When the request fails, or when
    its answer is not JSON, it prints the traceback and a line with the
    handle, and returns [None]. *)
Theorem repec_get_meta_never_raises (w : world) (token handle : string) :
  (exists v, snd (repec_get_meta w token handle) = Return v)
  /\ (forall e,
        requests_get_text w (repec_get_api_url token handle) = Raise e ->
        repec_get_meta w token handle
        = ([HttpGet (repec_get_api_url token handle); StdoutTraceback e;
            Stdout ("ERROR: " ++ handle)], Return PNone))
  /\ (forall body e,
        requests_get_text w (repec_get_api_url token handle) = Return body ->
        json_loads w body = Raise e ->
        repec_get_meta w token handle
        = ([HttpGet (repec_get_api_url token handle); StdoutTraceback e;
            Stdout ("ERROR: " ++ handle)], Return PNone)).
Proof.
  unfold repec_get_meta, http_get_text, try_except, lift, emit.
  cbn [bind io_monad ret].
  split; [|split].
  - destruct (requests_get_text w _) as [body|e]; cbn.
    + destruct (json_loads w body) as [v|e]; cbn; eexists; reflexivity.
    + eexists; reflexivity.
  - intros e ->. reflexivity.
  - intros body e -> . cbn. intros ->. reflexivity.
Qed.

Lemma repec_get_meta_never_raises_witness :
  repec_get_meta offline_world "TOKEN" "RePEc:abc"
  = ([HttpGet (repec_get_api_url "TOKEN" "RePEc:abc");
      StdoutTraceback (OtherError "ConnectionError");
      Stdout "ERROR: RePEc:abc"], Return PNone).
Proof.
  apply (proj1 (proj2 (repec_get_meta_never_raises offline_world _ _))).
  reflexivity.
Defined.

Lemma filter_filter_and {A} (f g : A -> bool) (l : list A) :
  filter f (filter g l) = filter (fun x => g x && f x) l.
Proof.
  induction l as [|x r IH]; cbn; [reflexivity|].
  destruct (g x); cbn; [destruct (f x)|]; rewrite ?IH; reflexivity.
Qed.

Lemma filter_all {A} (f : A -> bool) (l : list A) :
  forallb f l = true -> filter f l = l.
Proof.
  induction l as [|x r IH]; cbn; [reflexivity|].
  intros H. apply andb_prop in H. destruct H as [Hx Hr].
  rewrite Hx, (IH Hr). reflexivity.
Qed.

(** X10.  The text that [repec_get_cgi_url] sends to the search is the
    title without its parentheses and colons, every other character kept
    in place: no such character reaches the encoder, and a title without
    them goes through whole. *)
Theorem repec_get_cgi_url_drops_brackets (w : world) (title : string) :
  let q := string_of_list_ascii (filter repec_keeps (list_ascii_of_string title)) in
  repec_get_cgi_url w title = (REPEC_CGI_URL ++ urllib_quote_plus w q)%string
  /\ (forall c, In c (list_ascii_of_string q) ->
                c <> "("%char /\ c <> ")"%char /\ c <> ":"%char)
  /\ (forallb repec_keeps (list_ascii_of_string title) = true -> q = title).
Proof.
  cbn zeta. split; [|split].
  - unfold repec_get_cgi_url, PyStr.remove_char.
    rewrite !list_ascii_of_string_of_list_ascii, !filter_filter_and.
    do 3 f_equal. apply filter_ext. intros c. unfold repec_keeps.
    rewrite andb_assoc. reflexivity.
  - intros c Hc. rewrite list_ascii_of_string_of_list_ascii in Hc.
    apply filter_In in Hc. destruct Hc as [_ Hc]. unfold repec_keeps in Hc.
    apply andb_prop in Hc. destruct Hc as [Hc H3].
    apply andb_prop in Hc. destruct Hc as [H1 H2].
    apply negb_true_iff in H1, H2, H3.
    apply Ascii.eqb_neq in H1, H2, H3. auto.
  - intros Hall. rewrite (filter_all _ _ Hall).
    apply string_of_list_ascii_of_string.
Qed.

Lemma repec_get_cgi_url_drops_brackets_witness :
  repec_get_cgi_url (fixed_world empty_document empty_document PNone)
    "Estimating the True Cost of Job Loss"
  = "https://ideas.repec.org/cgi-bin/htsearch?q=Estimating the True Cost of Job Loss".
Proof.
  destruct (repec_get_cgi_url_drops_brackets
              (fixed_world empty_document empty_document PNone)
              "Estimating the True Cost of Job Loss") as [E [_ K]].
  rewrite E, (K eq_refl). reflexivity.
Defined.

(** ** Dimensions, further *)

Lemma search_title_run (w : world) (title : string) (c : dimensions_client) :
  search_title w title c
  = ([DimensionsQuery (username c) (password c) (search_title_query title)],
     match client_answer w c (search_title_query title) with
     | Raise e => Raise e
     | Return ans =>
         match Py.getitem_str ans "publications" with
         | Raise _ => Return PNone
         | Return r =>
             match Py.len r with
             | Raise _ => Return PNone
             | Return n => Return (if (0 <? n)%nat then r else PNone)
             end
         end
     end).
Proof.
  unfold search_title, execute_query, client_answer, search_title_query.
  cbv zeta.
  destruct (dimensions_execute_query w (username c) (password c) _) as [ans|e];
    [|reflexivity].
  cbv [bind io_monad try_except lift emit ret].
  destruct (Py.getitem_str ans "publications") as [r|e]; [|reflexivity].
  destruct (Py.len r) as [n|e]; [|reflexivity].
  destruct (0 <? n)%nat; reflexivity.
Qed.

(** X11.  [search_title] swallows every failure but the client's own.
    What it returns is [None] or the publications of the answer, which
    then have a positive length; what it raises is what the client raised
    for the query. *)
Theorem search_title_only_client_errors (w : world) (title : string)
    (c : dimensions_client) :
  (forall r,
     snd (search_title w title c) = Return r ->
     r = PNone
     \/ exists ans n,
          client_answer w c (search_title_query title) = Return ans
          /\ Py.getitem_str ans "publications" = Return r
          /\ Py.len r = Return n /\ 0 < n)
  /\ (forall e,
        snd (search_title w title c) = Raise e ->
        client_answer w c (search_title_query title) = Raise e).
Proof.
  rewrite search_title_run. cbn [snd].
  destruct (client_answer w c (search_title_query title)) as [ans|e0].
  - split; [|intros e H].
    + intros r H.
      destruct (Py.getitem_str ans "publications") as [p|e1] eqn:P;
        [|injection H as <-; auto].
      destruct (Py.len p) as [n|e2] eqn:L; [|injection H as <-; auto].
      destruct (0 <? n)%nat eqn:Z; injection H as <-; [|auto].
      right. exists ans, n. apply Nat.ltb_lt in Z. auto.
    + destruct (Py.getitem_str ans "publications") as [p|e1]; [|discriminate].
      destruct (Py.len p) as [n|e2]; discriminate.
  - split; [intros r H; discriminate | intros e H; exact H].
Qed.

Lemma search_title_only_client_errors_witness :
  client_answer offline_world (connect_ds_api "reader@example.org" "secret")
    (search_title_query "Deal or no deal") = Raise (OtherError "ConnectionError").
Proof.
  apply (proj2 (search_title_only_client_errors offline_world "Deal or no deal"
                  (connect_ds_api "reader@example.org" "secret"))).
  reflexivity.
Defined.

Section DimensionsFromTitle.

Context `{HashOrder}.
Variable w : world.
Variable title : string.
Variable c : dimensions_client.
Variable ans : pyval.
Hypothesis answered : client_answer w c (search_title_query title) = Return ans.

Lemma dimensions_from_title_hit (first : pyval) (rest : list pyval) :
  Py.getitem_str ans "publications" = Return (PList (first :: rest)) ->
  snd (dimensions_from_title w title c)
  = match format_dimensions first with
    | Return out => Return (PDict (Py.dict_set out "title" (PStr title)))
    | Raise e => Raise e
    end.
Proof.
  intros Hp. unfold dimensions_from_title. rewrite search_title_run.
  rewrite answered, Hp. cbn [Py.len List.length Nat.ltb Nat.leb].
  cbn [bind io_monad Py.truthy List.length Nat.eqb negb lift Py.getitem_0].
  destruct (format_dimensions first) as [out|e]; reflexivity.
Qed.

(** X12.  When the first publication of the answer formats well,
    [dimensions_from_title] returns its formatted record with [title] set
    to the queried title, and nothing of the later publications; when
    [format_dimensions] raises on the first publication, so does
    [dimensions_from_title]. *)
Theorem dimensions_from_title_first_hit (first : pyval) (rest : list pyval) :
  Py.getitem_str ans "publications" = Return (PList (first :: rest)) ->
  (forall out,
     format_dimensions first = Return out ->
     exists res,
       snd (dimensions_from_title w title c) = Return (PDict res)
       /\ Py.dict_get res "title" = Some (PStr title)
       /\ forall k, k <> "title" -> Py.dict_get res k = Py.dict_get out k)
  /\ (forall e,
        format_dimensions first = Raise e ->
        snd (dimensions_from_title w title c) = Raise e).
Proof.
  intros Hp. rewrite (dimensions_from_title_hit first rest Hp).
  split.
  - intros out ->. eexists. split; [reflexivity|]. split.
    + rewrite dict_get_set, String.eqb_refl. reflexivity.
    + intros k Hk. rewrite dict_get_set.
      apply String.eqb_neq in Hk. rewrite Hk. reflexivity.
  - intros e ->. reflexivity.
Qed.

(** X13.  An answer without publications, be it an empty list or an
    answer that has no list of publications at all, makes
    [dimensions_from_title] return [None] without raising. *)
Theorem dimensions_from_title_no_hit :
  Py.getitem_str ans "publications" = Return (PList [])
  \/ (exists e, Py.getitem_str ans "publications" = Raise e) ->
  dimensions_from_title w title c
  = ([DimensionsQuery (username c) (password c) (search_title_query title)],
     Return PNone).
Proof.
  intros Hp. unfold dimensions_from_title. rewrite search_title_run, answered.
  destruct Hp as [Hp|[e Hp]]; rewrite Hp; reflexivity.
Qed.

End DimensionsFromTitle.

Lemma dimensions_from_title_first_hit_witness :
  exists res,
    snd (@dimensions_from_title reverse_order
           (fixed_world empty_document empty_document
              (dimensions_answer [PDict example_record;
                                  PDict record_without_journal]))
           "Deal or no deal" (connect_ds_api "reader@example.org" "secret"))
    = Return (PDict res)
    /\ Py.dict_get res "title" = Some (PStr "Deal or no deal")
    /\ Py.dict_get res "journal_title" = Some (PStr "J").
Proof.
  destruct (@dimensions_from_title_first_hit reverse_order
              (fixed_world empty_document empty_document
                 (dimensions_answer [PDict example_record;
                                     PDict record_without_journal]))
              "Deal or no deal" (connect_ds_api "reader@example.org" "secret")
              _ eq_refl (PDict example_record) [PDict record_without_journal]
              eq_refl) as [Hit _].
  destruct (Hit _ eq_refl) as [res [E [T K]]].
  exists res. split; [exact E|]. split; [exact T|].
  rewrite K; [reflexivity | discriminate].
Defined.

Lemma dimensions_from_title_no_hit_witness :
  @dimensions_from_title insertion_order
    (fixed_world empty_document empty_document (dimensions_answer []))
    "Deal or no deal" (connect_ds_api "reader@example.org" "secret")
  = ([DimensionsQuery "reader@example.org" "secret"
        (search_title_query "Deal or no deal")], Return PNone).
Proof.
  apply (@dimensions_from_title_no_hit insertion_order
           (fixed_world empty_document empty_document (dimensions_answer []))
           "Deal or no deal" (connect_ds_api "reader@example.org" "secret")
           (dimensions_answer []) eq_refl).
  left. reflexivity.
Defined.

(** X14.  The Dimensions searches read the e-mail address, then the
    password, from the configuration before anything else.  When the first
    of these reads that fails raises an error (a [KeyError] for a key that
    is not there, an interpolation error for a value that cannot be
    expanded), the title search and the full-text search raise that error,
    and no query is sent. *)
Theorem dimensions_needs_credentials `{HashOrder} (w : world) (query : string)
    (e : exn) :
  config_default w "email" = Raise e
  \/ (exists user, config_default w "email" = Return user
                   /\ config_default w "dimensions_password" = Raise e) ->
  get_dimensions_md w query = ([], Raise e)
  /\ title_search w query "dimensions" = ([], Raise e)
  /\ full_text_search w query "dimensions" = ([], Raise e).
Proof.
  intros Hcfg.
  assert (E : connect_dimensions_api w = ([], Raise e)).
  { unfold connect_dimensions_api, config_get, lift.
    destruct Hcfg as [Hc|[user [Hu Hc]]].
    - rewrite Hc. reflexivity.
    - rewrite Hu. cbn [bind io_monad]. rewrite Hc. reflexivity. }
  assert (G : get_dimensions_md w query = ([], Raise e)).
  { unfold get_dimensions_md. rewrite E. reflexivity. }
  split; [exact G|]. split.
  - unfold title_search.
    change (PyStr.lower "dimensions") with "dimensions".
    cbn [String.eqb Ascii.eqb Bool.eqb].
    change (call_global w "get_dimensions_md" query) with (get_dimensions_md w query).
    rewrite G. reflexivity.
  - unfold full_text_search.
    change (PyStr.lower "dimensions") with "dimensions".
    cbn [String.eqb Ascii.eqb Bool.eqb]. rewrite E. reflexivity.
Qed.

Lemma dimensions_needs_credentials_witness :
  @get_dimensions_md insertion_order world_without_credentials "Deal or no deal"
  = ([], Raise KeyError)
  /\ @get_dimensions_md insertion_order world_with_bad_percent "Deal or no deal"
     = ([], Raise (OtherError "InterpolationSyntaxError")).
Proof.
  split.
  - apply (@dimensions_needs_credentials insertion_order
             world_without_credentials).
    right. exists "reader@example.org". split; reflexivity.
  - apply (@dimensions_needs_credentials insertion_order world_with_bad_percent).
    left. reflexivity.
Defined.

(** X15.  [run_pub_id_search] returns the first publication of the
    answer, and raises [IndexError] when the answer has an empty list of
    publications. *)
Theorem run_pub_id_search_first_or_index_error (w : world) (id : string)
    (c : dimensions_client) (ans : pyval) (publications : list pyval) :
  client_answer w c (pub_id_query id) = Return ans ->
  Py.getitem_str ans "publications" = Return (PList publications) ->
  snd (run_pub_id_search w id c)
  = match publications with
    | first :: _ => Return first
    | [] => Raise IndexError
    end.
Proof.
  unfold client_answer, pub_id_query. intros Ha Hp.
  unfold run_pub_id_search, execute_query. cbv zeta.
  cbv [bind io_monad emit lift]. rewrite Ha, Hp.
  destruct publications; reflexivity.
Qed.

Lemma run_pub_id_search_first_or_index_error_witness :
  snd (run_pub_id_search
         (fixed_world empty_document empty_document (dimensions_answer []))
         "pub.1" (connect_ds_api "reader@example.org" "secret"))
  = Raise IndexError.
Proof.
  apply (run_pub_id_search_first_or_index_error _ _ _ (dimensions_answer []) []);
    reflexivity.
Defined.

(** X16.  For Dimensions, [full_text_search] returns the publications of
    the answer as they are, with no title check; an answer that is empty
    (falsy) leaves the result unassigned, and the call raises
    [UnboundLocalError] although the provider is the recognised one. *)
Theorem full_text_search_dimensions (w : world) (search_term api_name user pass : string)
    (ans : pyval) :
  PyStr.lower api_name = "dimensions" ->
  config_default w "email" = Return user ->
  config_default w "dimensions_password" = Return pass ->
  client_answer w (connect_ds_api user pass) (full_text_query search_term)
  = Return ans ->
  snd (full_text_search w search_term api_name)
  = if Py.truthy ans then Py.getitem_str ans "publications"
    else Raise UnboundLocalError.
Proof.
  unfold client_answer, full_text_query. intros Hn He Hp Ha.
  unfold full_text_search, connect_dimensions_api, config_get,
    dimensions_run_exact_string_search, execute_query.
  rewrite Hn, He, Hp. cbv zeta.
  change ("dimensions" =? "dimensions")%string with true.
  cbv [bind io_monad emit lift ret username password connect_ds_api].
  cbv [username password connect_ds_api] in Ha. rewrite Ha.
  destruct (Py.truthy ans); [|reflexivity].
  destruct (Py.getitem_str ans "publications"); reflexivity.
Qed.

Lemma full_text_search_dimensions_witness :
  snd (full_text_search (fixed_world empty_document empty_document (PDict []))
         "price promotions" "Dimensions")
  = Raise UnboundLocalError.
Proof.
  apply (full_text_search_dimensions
           (fixed_world empty_document empty_document (PDict []))
           "price promotions" "Dimensions" "reader@example.org" "secret"
           (PDict []));
    reflexivity.
Defined.

Lemma dict_comp_keys {V} (f : string -> result V) (ks : list string) :
  forall acc out,
    Py.dict_comp f ks acc = Return out ->
    map fst out = fold_left add_key ks (map fst acc).
Proof.
  induction ks as [|k r IH]; intros acc out; cbn [Py.dict_comp fold_left].
  - intros E. injection E as <-. reflexivity.
  - destruct (f k) as [v|e]; cbn [bind result_monad]; [|discriminate].
    intros E. rewrite (IH _ _ E), dict_set_keys. reflexivity.
Qed.

Lemma fold_add_key_fresh (ks : list string) :
  forall acc, NoDup (acc ++ ks) -> fold_left add_key ks acc = acc ++ ks.
Proof.
  induction ks as [|k r IH]; intros acc Hnd; cbn [fold_left].
  - rewrite app_nil_r. reflexivity.
  - assert (Hk : memb k acc = false).
    { destruct (memb k acc) eqn:E; [|reflexivity].
      apply memb_In in E. apply NoDup_remove_2 in Hnd.
      exfalso. apply Hnd. apply in_or_app. left. exact E. }
    unfold add_key at 2. rewrite Hk.
    rewrite IH; rewrite <- app_assoc; [reflexivity | exact Hnd].
Qed.

Section FormatDimensionsShape.

Context `{HashOrder}.
Variable d : list (string * pyval).

Local Abbreviation filt_keys :=
  (set_order (Py.set_inter String.eqb (Py.set_of_list String.eqb (map fst d))
                (Py.set_of_list String.eqb allowed_raw_keys))).

Local Abbreviation kept_keys :=
  (set_order (Py.set_inter String.eqb (Py.set_of_list String.eqb filt_keys)
                (Py.set_of_list String.eqb allowed_final_keys))).

Lemma memb_kept_keys (k : string) :
  memb k kept_keys
  = memb k (map fst d) && memb k allowed_raw_keys && memb k allowed_final_keys.
Proof.
  rewrite memb_set_order, memb_set_inter, !memb_set_of_list, memb_filt_keys.
  reflexivity.
Qed.

Lemma NoDup_kept_keys : NoDup (kept_keys ++ ["keywords"; "journal_title"]).
Proof.
  apply NoDup_app.
  - apply (Permutation_NoDup (Permutation_sym (set_order_perm _ _))).
    apply NoDup_filter, NoDup_fold_set_add. constructor.
  - repeat constructor; cbn; intuition discriminate.
  - intros k Hk Hin. apply memb_In in Hk. rewrite memb_kept_keys in Hk.
    apply andb_prop in Hk. destruct Hk as [Hk _].
    apply andb_prop in Hk. destruct Hk as [_ Hk].
    destruct Hin as [<-|[<-|[]]]; discriminate.
Qed.

(** X18.  The record that [format_dimensions] returns is a well-formed
    dictionary: no key occurs twice, the kept input fields ([authors],
    [doi], [linkout], those that the input has) come first, and
    [keywords] and [journal_title] are the last two keys, in this order. *)
Theorem format_dimensions_key_order (out : list (string * pyval)) :
  format_dimensions (PDict d) = Return out ->
  exists kept,
    map fst out = kept ++ ["keywords"; "journal_title"]
    /\ NoDup (map fst out)
    /\ forall k, In k kept <->
                 In k ["authors"; "doi"; "linkout"] /\ Py.dict_get d k <> None.
Proof.
  unfold format_dimensions. cbn [Py.keys bind result_monad].
  destruct (Py.dict_comp (Py.getitem_str (PDict d)) filt_keys []) as [pubs|e];
    cbn [bind result_monad]; [|discriminate].
  destruct (Py.dict_getitem pubs "terms") as [t|e];
    cbn [bind result_monad]; [|discriminate].
  destruct (Py.dict_getitem pubs "concepts") as [cc|e];
    cbn [bind result_monad]; [|discriminate].
  destruct (Py.add t cc) as [both|e]; cbn [bind result_monad]; [|discriminate].
  destruct (Py.set both) as [kw|e]; cbn [bind result_monad]; [|discriminate].
  destruct (Py.dict_getitem _ "journal") as [j|e];
    cbn [bind result_monad]; [|discriminate].
  destruct (Py.getitem_str j "title") as [jt|e];
    cbn [bind result_monad]; [|discriminate].
  intros E. apply dict_comp_keys in E. cbn [map] in E.
  rewrite (fold_add_key_fresh _ [] NoDup_kept_keys) in E. cbn [app] in E.
  exists kept_keys. split; [exact E|]. split.
  - rewrite E. exact NoDup_kept_keys.
  - intros k. rewrite <- memb_In, memb_kept_keys, dict_get_keys.
    destruct (Py.dict_get d k) as [v|]; cbn [andb].
    + split.
      * intros Hk. apply andb_prop in Hk. destruct Hk as [Hr Hf].
        apply memb_In in Hf. split; [|discriminate].
        destruct Hf as [<-|[<-|[<-|[<-|[<-|[]]]]]]; cbn; auto; discriminate.
      * intros [Hk _].
        destruct Hk as [<-|[<-|[<-|[]]]]; reflexivity.
    + split; [discriminate | intros [_ N]; contradiction].
Qed.

End FormatDimensionsShape.

Lemma format_dimensions_key_order_witness :
  exists kept,
    map fst [("doi", PStr "10.1000/first");
             ("authors", PList [PDict [("last_name", PStr "Smith")]]);
             ("keywords", PList [PStr "c"; PStr "b"; PStr "a"]);
             ("journal_title", PStr "J")]
    = kept ++ ["keywords"; "journal_title"]
    /\ forall k, In k kept <->
                 In k ["authors"; "doi"; "linkout"]
                 /\ Py.dict_get example_record k <> None.
Proof.
  destruct (@format_dimensions_key_order reverse_order example_record _ eq_refl)
    as [kept [E [_ K]]].
  exists kept. split; [exact E | exact K].
Defined.

(** X17.  The order in which Python hands out the members of a set
    changes nothing in the record of [format_dimensions] but the order of
    its keys and of its keywords: under two orders, every field other than
    [keywords] has the same value, and the two lists of keywords have the
    same members. *)
Theorem format_dimensions_order_independent (H1 H2 : HashOrder)
    (d : list (string * pyval)) (terms concepts : list string)
    (journal : list (string * pyval)) (jt : pyval) :
  Py.dict_get d "terms" = Some (PList (map PStr terms)) ->
  Py.dict_get d "concepts" = Some (PList (map PStr concepts)) ->
  Py.dict_get d "journal" = Some (PDict journal) ->
  Py.dict_get journal "title" = Some jt ->
  exists out1 out2 kws1 kws2,
    @format_dimensions H1 (PDict d) = Return out1
    /\ @format_dimensions H2 (PDict d) = Return out2
    /\ (forall k, k <> "keywords" -> Py.dict_get out1 k = Py.dict_get out2 k)
    /\ Py.dict_get out1 "keywords" = Some (PList kws1)
    /\ Py.dict_get out2 "keywords" = Some (PList kws2)
    /\ Permutation kws1 kws2.
Proof.
  intros Ht Hc Hj Hjt.
  destruct (@format_dimensions_run H1 d terms concepts journal jt Ht Hc Hj Hjt)
    as [out1 [kws1 [E1 [P1 G1]]]].
  destruct (@format_dimensions_run H2 d terms concepts journal jt Ht Hc Hj Hjt)
    as [out2 [kws2 [E2 [P2 G2]]]].
  exists out1, out2, kws1, kws2.
  split; [exact E1|]. split; [exact E2|]. split; [|split; [|split]].
  - intros k Hk. rewrite G1, G2.
    rewrite (@memb_final_keys H1), (@memb_final_keys H2).
    apply String.eqb_neq in Hk. rewrite Hk. reflexivity.
  - rewrite G1, (@memb_final_keys H1).
    change (memb "keywords" ["keywords"; "journal_title"]) with true.
    rewrite orb_true_r. reflexivity.
  - rewrite G2, (@memb_final_keys H2).
    change (memb "keywords" ["keywords"; "journal_title"]) with true.
    rewrite orb_true_r. reflexivity.
  - apply (Permutation_trans P1). apply Permutation_sym. exact P2.
Qed.

Lemma format_dimensions_order_independent_witness :
  exists out1 out2,
    @format_dimensions insertion_order (PDict example_record) = Return out1
    /\ @format_dimensions reverse_order (PDict example_record) = Return out2
    /\ Py.dict_get out1 "doi" = Py.dict_get out2 "doi"
    /\ Py.dict_get out1 "journal_title" = Py.dict_get out2 "journal_title".
Proof.
  destruct (format_dimensions_order_independent insertion_order reverse_order
              example_record ["a"; "b"] ["b"; "c"]
              [("id", PStr "jour.1"); ("title", PStr "J")] (PStr "J")
              eq_refl eq_refl eq_refl eq_refl)
    as [out1 [out2 [k1 [k2 [E1 [E2 [K _]]]]]]].
  exists out1, out2. split; [exact E1|]. split; [exact E2|].
  split; apply K; discriminate.
Defined.

(** ** SSRN *)

(** X19.  [search_ssrn] closes the browser only on success: the browser
    is quit exactly when the call returns, so every failure after the
    start (no search field, no result link, a page that does not load)
    leaves the browser running. *)
Theorem search_ssrn_quits_iff_returns (w : world) (title : string) :
  In BrowserQuit (fst (search_ssrn w title))
  <-> exists link, snd (search_ssrn w title) = Return link.
Proof.
  unfold search_ssrn, config_get, lift, emit. cbv zeta.
  destruct (config_default w "chrome_exe_path") as [path|e0];
    cbn [bind io_monad ret app fst snd];
    [|split; [intros [] | intros [l Hl]; discriminate]].
  destruct (chrome_start w path) as [[]|e];
    cbn [bind io_monad ret app fst snd];
    [|split; [intros [E|[]]; discriminate | intros [l Hl]; discriminate]].
  destruct (browser_page w _) as [home|e];
    cbn [bind io_monad ret app fst snd];
    [|split; [intros [E|[E|[]]]; discriminate | intros [l Hl]; discriminate]].
  destruct (Selenium.find_element_by_class_name home "form-control") as [field|e];
    cbn [bind io_monad ret app fst snd];
    [|split; [intros [E|[E|[]]]; discriminate | intros [l Hl]; discriminate]].
  destruct (browser_page w (browser_url_after_search w title)) as [results|e];
    cbn [bind io_monad ret app fst snd];
    [|split; [intros [E|[E|[E|[E|[E|[]]]]]]; discriminate
             | intros [l Hl]; discriminate]].
  destruct (Selenium.find_element_by_class_attribute results _) as [elt|e];
    cbn [bind io_monad ret app fst snd];
    [|split; [intros [E|[E|[E|[E|[E|[]]]]]]; discriminate
             | intros [l Hl]; discriminate]].
  split; [intros _; eexists; reflexivity|].
  intros _. do 5 right. left. reflexivity.
Qed.

Lemma search_ssrn_quits_iff_returns_witness :
  In BrowserQuit
     (fst (search_ssrn (fixed_world empty_document ssrn_page_with_result PNone)
             "Deal or no deal"))
  /\ ~ In BrowserQuit
        (fst (search_ssrn
                (fixed_world empty_document ssrn_page_without_results PNone)
                "Deal or no deal")).
Proof.
  split.
  - apply (proj2 (search_ssrn_quits_iff_returns _ _)).
    exists (Some "https://ssrn.com/abstract=123"). reflexivity.
  - intros Hq. apply (proj1 (search_ssrn_quits_iff_returns _ _)) in Hq.
    destruct Hq as [link Hl]. discriminate.
Defined.

Lemma list_pair_ind {A} (P : list A -> Prop) :
  P [] -> (forall x, P [x]) -> (forall x y r, P r -> P (x :: y :: r)) ->
  forall l, P l.
Proof.
  intros H0 H1 H2. fix IH 1.
  intros [|x [|y r]]; [exact H0 | apply H1 | apply H2, IH].
Qed.

Lemma get_author_chunks_cons2 (x y : node) (r : list node) :
  get_author_chunks (x :: y :: r) = [x; y] :: get_author_chunks r.
Proof.
  unfold get_author_chunks. cbv zeta.
  replace (List.length (x :: y :: r) + 2 - 1) with (List.length r + 2 - 1 + 1 * 2)
    by (cbn [List.length]; lia).
  rewrite Nat.div_add by discriminate.
  rewrite Nat.add_1_r. cbn [seq map].
  f_equal. rewrite <- seq_shift, map_map. apply map_ext. intros i.
  unfold slice.
  replace ((S i + 1) * 2 - S i * 2) with ((i + 1) * 2 - i * 2) by lia.
  replace (S i * 2) with (S (S (i * 2))) by lia. reflexivity.
Qed.

Lemma get_author_loop_pairs (l : list node) :
  forall acc,
    get_author_loop (get_author_chunks l) acc
    = if Nat.even (List.length l) then Return (acc ++ author_pairs l)
      else Raise IndexError.
Proof.
  induction l as [|x|x y r IH] using list_pair_ind; intros acc.
  - cbn. rewrite app_nil_r. reflexivity.
  - reflexivity.
  - rewrite get_author_chunks_cons2. cbn [get_author_loop item nth_error].
    cbn [bind result_monad]. rewrite IH.
    cbn [List.length Nat.even author_pairs].
    destruct (Nat.even (List.length r)); [|reflexivity].
    rewrite <- app_assoc. reflexivity.
Qed.

(** X20.  [get_author] reads the one-child [a] and [p] elements of the
    author block two at a time, as author and affiliation.  With an even
    number of them it returns one record per pair, in order; with an odd
    number it raises [IndexError]; without the author block it raises
    [AttributeError]. *)
Theorem get_author_pairs_or_index_error (soup : node) :
  (forall author_chunk,
     Soup.find soup None [("class", "authors authors-full-width")]
     = Some author_chunk ->
     let filtered_list :=
       filter (fun e => Nat.eqb (contents_length e) 1)
              (find_all_names author_chunk ["a"; "p"]) in
     get_author soup
     = if Nat.even (List.length filtered_list)
       then Return (author_pairs filtered_list)
       else Raise IndexError)
  /\ (Soup.find soup None [("class", "authors authors-full-width")] = None ->
      get_author soup = Raise AttributeError).
Proof.
  unfold get_author. split.
  - intros chunk ->. cbv zeta. rewrite get_author_loop_pairs. reflexivity.
  - intros ->. reflexivity.
Qed.

Lemma get_author_pairs_or_index_error_witness :
  get_author ssrn_two_authors
  = Return [PDict [("author_name", PStr "Jane Smith");
                   ("affl", PStr "University of A")];
            PDict [("author_name", PStr "Ann Doe"); ("affl", PStr "Institute B")]]
  /\ get_author empty_document = Raise AttributeError.
Proof.
  destruct (get_author_pairs_or_index_error ssrn_two_authors) as [P _].
  destruct (get_author_pairs_or_index_error empty_document) as [_ N].
  split.
  - rewrite (P _ eq_refl). reflexivity.
  - apply N. reflexivity.
Defined.

Lemma strip_whitespace_trimmed (s : string) : trimmed (strip_whitespace s).
Proof.
  unfold trimmed, strip_whitespace.
  rewrite list_ascii_of_string_of_list_ascii.
  split; [apply strip_head_kept | apply strip_last_kept].
Qed.

(** X21.  A record that [get_ssrn_metadata] returns has the five keys
    [title], [keywords], [doi], [authors], [url]; its [url] is the address
    that was asked for, and its keywords, at least one, neither begin nor
    end with whitespace.  A page without the [citation_title] meta element
    makes it raise [TypeError]. *)
Theorem get_ssrn_metadata_record (w : world) (url : string) :
  (forall v,
     snd (get_ssrn_metadata w url) = Return v ->
     exists title keywords doi authors,
       v = PDict [("title", PStr title); ("keywords", PList (map PStr keywords));
                  ("doi", PStr doi); ("authors", PList authors);
                  ("url", PStr url)]
       /\ keywords <> [] /\ Forall trimmed keywords)
  /\ (forall response,
        requests_get_text w url = Return response ->
        Soup.find (html_parser w response) (Some "meta")
          [("name", "citation_title")] = None ->
        snd (get_ssrn_metadata w url) = Raise TypeError).
Proof.
  unfold get_ssrn_metadata, get_soup, http_get_text, emit, lift.
  cbn [bind io_monad ret].
  split.
  - intros v.
    destruct (requests_get_text w url) as [response|e];
      cbn [bind io_monad ret snd app]; [|discriminate].
    destruct (tag_getitem (Soup.find _ _ [("name", "citation_title")]) "content")
      as [title|e]; cbn [bind io_monad ret snd app]; [|discriminate].
    destruct (tag_getitem (Soup.find _ _ [("name", "citation_keywords")]) "content")
      as [kw|e]; cbn [bind io_monad ret snd app]; [|discriminate].
    destruct (tag_getitem (Soup.find _ _ [("name", "citation_doi")]) "content")
      as [doi|e]; cbn [bind io_monad ret snd app]; [|discriminate].
    destruct (get_author _) as [authors|e];
      cbn [bind io_monad ret snd app]; [|discriminate].
    intros E. injection E as <-.
    exists title,
      (map strip_whitespace (PyStr.split_comma_space [] (list_ascii_of_string kw))),
      doi, authors.
    split; [reflexivity|]. split.
    + destruct (split_comma_space_spec _ (list_ascii_of_string kw) [] (le_n _))
        as [Hne _].
      destruct (PyStr.split_comma_space [] (list_ascii_of_string kw));
        [contradiction | discriminate].
    + apply Forall_forall. intros k Hk. apply in_map_iff in Hk.
      destruct Hk as [k0 [<- _]]. apply strip_whitespace_trimmed.
  - intros response -> ->. reflexivity.
Qed.

Lemma get_ssrn_metadata_record_witness :
  exists title keywords doi authors,
    PDict [("title", PStr "Deal or No Deal");
           ("keywords", PList [PStr "prices"; PStr "promotions"; PStr "food"]);
           ("doi", PStr "10.2139/ssrn.123");
           ("authors",
            PList [PDict [("author_name", PStr "Jane Smith");
                          ("affl", PStr "University of A")]]);
           ("url", PStr "https://ssrn.com/abstract=123")]
    = PDict [("title", PStr title); ("keywords", PList (map PStr keywords));
             ("doi", PStr doi); ("authors", PList authors);
             ("url", PStr "https://ssrn.com/abstract=123")]
    /\ keywords <> [] /\ Forall trimmed keywords.
Proof.
  apply (proj1 (get_ssrn_metadata_record
                  (fixed_world ssrn_article_page empty_document PNone)
                  "https://ssrn.com/abstract=123")).
  reflexivity.
Defined.

Lemma resolve_get_metadata `{HashOrder} (w : world) :
  resolve_global w "get_metadata" = ([], Raise NameError).
Proof. reflexivity. Qed.

(** X22.  [ssrn_url_search] never returns metadata: the function it
    calls for them, [get_metadata], is a name the module does not bind.
    Whatever the publication, the call returns the empty list or raises;
    a publication whose address contains [ssrn] raises [NameError], and
    one whose address and DOI are strings without [ssrn] gets the empty
    list. *)
Theorem ssrn_url_search_never_finds `{HashOrder} (w : world) (pub : pyval) :
  (forall v, snd (ssrn_url_search w pub) = Return v -> v = PList [])
  /\ (forall url doi,
        Py.getitem_str pub "url" = Return (PStr url) ->
        Py.getitem_str pub "doi" = Return doi ->
        str_contains (list_ascii_of_string "ssrn") (list_ascii_of_string url) = true ->
        ssrn_url_search w pub = ([], Raise NameError))
  /\ (forall url doi,
        Py.getitem_str pub "url" = Return (PStr url) ->
        Py.getitem_str pub "doi" = Return (PStr doi) ->
        str_contains (list_ascii_of_string "ssrn") (list_ascii_of_string url) = false ->
        str_contains (list_ascii_of_string "ssrn") (list_ascii_of_string doi) = false ->
        ssrn_url_search w pub = ([], Return (PList []))).
Proof.
  unfold ssrn_url_search, lift. split; [|split].
  - intros v.
    destruct (Py.getitem_str pub "url") as [url|e];
      cbn [bind io_monad snd app]; [|discriminate].
    destruct (Py.getitem_str pub "doi") as [doi|e];
      cbn [bind io_monad snd app]; [|discriminate].
    destruct (py_contains "ssrn" url) as [[|]|e];
      cbn [bind io_monad snd app]; [| |discriminate].
    + rewrite resolve_get_metadata. cbn [bind io_monad snd]. discriminate.
    + destruct (py_contains "ssrn" doi) as [[|]|e];
        cbn [bind io_monad snd app]; [| |discriminate].
      * destruct (py_after_first "ssrn." doi) as [d|e];
          cbn [bind io_monad snd app]; [|discriminate].
        rewrite resolve_get_metadata. cbn [bind io_monad snd]. discriminate.
      * cbn. intros E. injection E as <-. reflexivity.
  - intros url doi -> -> Hc. cbn [bind io_monad app py_contains].
    rewrite Hc. cbn [bind io_monad app]. rewrite resolve_get_metadata. reflexivity.
  - intros url doi -> -> Hu Hd. cbn [bind io_monad app py_contains].
    rewrite Hu. cbn [bind io_monad app]. rewrite Hd. reflexivity.
Qed.

Lemma ssrn_url_search_never_finds_witness :
  @ssrn_url_search insertion_order
     (fixed_world empty_document empty_document PNone)
     (PDict [("url", PStr "https://papers.ssrn.com/abstract=123");
             ("doi", PStr "10.2139/ssrn.123")])
  = ([], Raise NameError)
  /\ @ssrn_url_search insertion_order
       (fixed_world empty_document empty_document PNone)
       (PDict [("url", PStr "https://example.org/paper");
               ("doi", PStr "10.1000/first")])
     = ([], Return (PList [])).
Proof.
  split.
  - apply (proj1 (proj2 (@ssrn_url_search_never_finds insertion_order _ _))
             "https://papers.ssrn.com/abstract=123" (PStr "10.2139/ssrn.123"));
      reflexivity.
  - apply (proj2 (proj2 (@ssrn_url_search_never_finds insertion_order _ _))
             "https://example.org/paper" "10.1000/first");
      reflexivity.
Defined.

(** ** What the searches do not look at *)

(** X23.  [repec_get_handle] takes the handle of the first entry of the
    listing without looking at the title it was asked for: two titles
    whose answers parse to the same document get the same handle, or the
    same failure. *)
Theorem repec_get_handle_ignores_title (w : world) (title1 title2 : string)
    (response1 response2 : string) :
  requests_get_text w (repec_get_cgi_url w title1) = Return response1 ->
  requests_get_text w (repec_get_cgi_url w title2) = Return response2 ->
  html_parser w response1 = html_parser w response2 ->
  snd (repec_get_handle w title1) = snd (repec_get_handle w title2).
Proof.
  intros H1 H2 Hsoup.
  unfold repec_get_handle, http_get_text, emit, lift.
  cbn [bind io_monad]. rewrite H1, H2, Hsoup.
  destruct (Soup.find (html_parser w response2) (Some "ol") _) as [ol|];
    [|reflexivity].
  cbn [bind io_monad ret].
  destruct (Soup.findChildren ol) as [|li rest]; [reflexivity|].
  destruct (Soup.find li (Some "i") []); reflexivity.
Qed.

Lemma repec_get_handle_ignores_title_witness :
  snd (repec_get_handle world_without_match "Deal or no deal")
  = snd (repec_get_handle world_without_match "Another title (2019): a study").
Proof.
  apply (repec_get_handle_ignores_title world_without_match _ _
           "<response>" "<response>");
    reflexivity.
Defined.

(** X24.  One entry without a title element, met before any entry under
    the queried title, stops the OpenAIRE and the EuropePMC searches with
    [AttributeError], whatever comes after it in the response. *)
Theorem untitled_entry_stops_search (w : world) (title response : string)
    (pre post : list node) (x : node) :
  Forall (other_title title) pre ->
  get_xml_node_value x "title" = None ->
  (requests_get_text w (openaire_get_api_url w title) = Return response ->
   Soup.find_all (html_parser w response) (Some "oaf:result") []
   = pre ++ x :: post ->
   snd (openaire_title_search w title) = Raise AttributeError)
  /\ (requests_get_text w (europepmc_get_api_url w title) = Return response ->
      Soup.find_all (html_parser w response) (Some "result") []
      = pre ++ x :: post ->
      snd (europepmc_title_search w title) = Raise AttributeError).
Proof.
  intros Hpre Hx.
  destruct (untitled_entry_raises title pre post x [] Hpre Hx) as [O E].
  split; intros Hget Hlist.
  - unfold openaire_title_search, http_get_text, emit, lift.
    cbn [bind io_monad]. rewrite Hget, Hlist, O. reflexivity.
  - unfold europepmc_title_search, http_get_text, emit, lift.
    cbn [bind io_monad]. rewrite Hget, Hlist, E. reflexivity.
Qed.

Lemma untitled_entry_stops_search_witness :
  snd (openaire_title_search
         (fixed_world
            (Tag "[document]" []
               [Tag "oaf:result" [] [element "url" "http://example.org/0"];
                openaire_entry "Deal or No Deal?" "http://example.org/1"
                  ["Smith J"] ["OPEN"]])
            empty_document PNone)
         "Deal or no deal")
  = Raise AttributeError.
Proof.
  apply (proj1 (untitled_entry_stops_search _ "Deal or no deal" "<response>"
                  [] [openaire_entry "Deal or No Deal?" "http://example.org/1"
                        ["Smith J"] ["OPEN"]]
                  (Tag "oaf:result" [] [element "url" "http://example.org/0"])
                  (Forall_nil _) eq_refl));
    reflexivity.
Defined.

(** X25.  In a EuropePMC response, the last entry under the queried
    title decides the [doi], [pmcid], [journal] and [authors] of the
    record; the [pdf] of the record is that entry's own if it says it has
    a PDF, and otherwise the one the entries before it left, if any. *)
Theorem europepmc_last_match_decides (w : world) (title response authors : string)
    (pre post : list node) (r : node) (before : list (string * pyval)) :
  requests_get_text w (europepmc_get_api_url w title) = Return response ->
  Soup.find_all (html_parser w response) (Some "result") [] = pre ++ r :: post ->
  europepmc_loop title pre [] = Return before ->
  same_title title r ->
  get_xml_node_value r "authorstring" = Some authors ->
  Forall (other_title title) post ->
  exists meta,
    snd (europepmc_title_search w title) = Return meta
    /\ Py.dict_get meta "doi" = Some (Py.of_option (get_xml_node_value r "doi"))
    /\ Py.dict_get meta "pmcid"
       = Some (Py.of_option (get_xml_node_value r "pmcid"))
    /\ Py.dict_get meta "journal"
       = Some (Py.of_option (get_xml_node_value r "journaltitle"))
    /\ Py.dict_get meta "authors"
       = Some (PList (map PStr (PyStr.split_comma_space []
                                  (list_ascii_of_string authors))))
    /\ Py.dict_get meta "pdf"
       = if Py.opt_eqb (get_xml_node_value r "haspdf") "Y"
         then Some (PStr (europepmc_pdf_url r))
         else Py.dict_get before "pdf".
Proof.
  intros Hget Hlist Hpre Hr Ha Hpost.
  destruct (europepmc_last_match title authors pre post r before
              Hpre Hr Ha Hpost) as [meta [E F]].
  exists meta. split; [|exact F].
  unfold europepmc_title_search, http_get_text, emit, lift.
  cbn [bind io_monad]. rewrite Hget, Hlist, E. reflexivity.
Qed.

Lemma europepmc_last_match_decides_witness :
  exists meta,
    snd (europepmc_title_search
           (fixed_world europepmc_two_matches empty_document PNone)
           "Deal or no deal") = Return meta
    /\ Py.dict_get meta "doi" = Some (PStr "10.1000/second")
    /\ Py.dict_get meta "pdf"
       = Some (PStr "http://europepmc.org/articles/PMC1?pdf=render").
Proof.
  assert (Hpost : Forall (other_title "Deal or no deal") []) by constructor.
  destruct (europepmc_last_match_decides
              (fixed_world europepmc_two_matches empty_document PNone)
              "Deal or no deal" "<response>" "Poe E"
              [europepmc_entry "Deal or No Deal?" "10.1000/first" "PMC1"
                 "Appetite" "Smith J, Doe A" "Y";
               europepmc_entry "Another paper" "10.1000/other" "PMC9"
                 "Nature" "Roe R" "Y"]
              []
              (europepmc_entry "deal  or no deal." "10.1000/second" "PMC2"
                 "Food Policy" "Poe E" "N")
              _ eq_refl eq_refl eq_refl eq_refl eq_refl Hpost)
    as [meta [E [D [_ [_ [_ P]]]]]].
  exists meta. split; [exact E|]. split; [exact D | exact P].
Defined.

(** ** Look-ups that find nothing *)

(** C3, as amended.  When every entry of the answer is under another
    title, the EuropePMC and the OpenAIRE searches return an empty record;
    when the RePEc listing is there and holds no element,
    [repec_get_handle] returns [None]; when the Dimensions answer has an
    empty list of publications, or none that can be read,
    [get_dimensions_md] and the dispatcher on it return [None]; the SSRN
    search, when the results page holds no result link, lets the driver's
    [NoSuchElementException] reach the caller. *)
Theorem lookups_without_match `{HashOrder} (w : world) (title : string) :
  (forall response,
     requests_get_text w (europepmc_get_api_url w title) = Return response ->
     Forall (other_title title)
            (Soup.find_all (html_parser w response) (Some "result") []) ->
     europepmc_title_search w title
     = ([HttpGet (europepmc_get_api_url w title)], Return []))
  /\ (forall response,
     requests_get_text w (openaire_get_api_url w title) = Return response ->
     Forall (other_title title)
            (Soup.find_all (html_parser w response) (Some "oaf:result") []) ->
     openaire_title_search w title
     = ([HttpGet (openaire_get_api_url w title)], Return []))
  /\ (forall response ol,
     requests_get_text w (repec_get_cgi_url w title) = Return response ->
     Soup.find (html_parser w response) (Some "ol") [("class", "list-group")]
     = Some ol ->
     Soup.findChildren ol = [] ->
     repec_get_handle w title
     = ([HttpGet (repec_get_cgi_url w title)], Return None))
  /\ (forall user pass ans,
     config_default w "email" = Return user ->
     config_default w "dimensions_password" = Return pass ->
     client_answer w (connect_ds_api user pass) (search_title_query title)
     = Return ans ->
     Py.getitem_str ans "publications" = Return (PList [])
     \/ (exists e, Py.getitem_str ans "publications" = Raise e) ->
     get_dimensions_md w title
     = ([DimensionsQuery user pass (search_title_query title)], Return PNone)
     /\ title_search w title "dimensions"
        = ([DimensionsQuery user pass (search_title_query title)], Return PNone))
  /\ (forall path home field results,
     config_default w "chrome_exe_path" = Return path ->
     chrome_start w path = Return tt ->
     browser_page w "https://www.ssrn.com/index.cfm/en/" = Return home ->
     Selenium.find_element_by_class_name home "form-control" = Return field ->
     browser_page w (browser_url_after_search w title) = Return results ->
     Selenium.find_element_by_class_attribute results "title optClickTitle"
     = Raise NoSuchElementException ->
     snd (search_ssrn w title) = Raise NoSuchElementException).
Proof.
  split; [|split; [|split; [|split]]].
  - intros response Hget Hall.
    unfold europepmc_title_search, http_get_text, emit, lift.
    cbn [bind io_monad]. rewrite Hget. cbn [app].
    rewrite (europepmc_loop_no_match title _ [] Hall). reflexivity.
  - intros response Hget Hall.
    unfold openaire_title_search, http_get_text, emit, lift.
    cbn [bind io_monad]. rewrite Hget. cbn [app].
    rewrite (openaire_loop_no_match title _ [] Hall). reflexivity.
  - intros response ol Hget Hol Hnone.
    unfold repec_get_handle, http_get_text, emit, lift.
    cbn [bind io_monad]. rewrite Hget. cbn [app].
    rewrite Hol. cbn [bind io_monad ret]. rewrite Hnone. reflexivity.
  - intros user pass ans He Hp Ha Hpubs.
    assert (G : get_dimensions_md w title
                = ([DimensionsQuery user pass (search_title_query title)],
                   Return PNone)).
    { unfold get_dimensions_md, connect_dimensions_api, config_get, lift,
        dimensions_title_search, dimensions_from_title.
      rewrite He. cbn [bind io_monad ret]. rewrite Hp. cbn [bind io_monad ret].
      rewrite search_title_run, Ha.
      destruct Hpubs as [Hpubs|[e Hpubs]]; rewrite Hpubs; reflexivity. }
    split; [exact G|].
    unfold title_search.
    change (PyStr.lower "dimensions") with "dimensions".
    cbn [String.eqb Ascii.eqb Bool.eqb].
    change (call_global w "get_dimensions_md" title) with (get_dimensions_md w title).
    rewrite G. reflexivity.
  - intros path home field results Hcfg Hstart Hhome Hfield Hres Hnone.
    unfold search_ssrn, config_get, emit, lift.
    rewrite Hcfg. cbn [bind io_monad]. rewrite Hstart. cbn [bind io_monad].
    rewrite Hhome. cbn [bind io_monad]. rewrite Hfield. cbn [bind io_monad].
    rewrite Hres. cbn [bind io_monad]. rewrite Hnone. reflexivity.
Qed.

Lemma lookups_without_match_witness :
  snd (europepmc_title_search world_without_match "Deal or no deal") = Return []
  /\ snd (openaire_title_search world_without_match "Deal or no deal") = Return []
  /\ snd (repec_get_handle world_without_match "Deal or no deal") = Return None
  /\ snd (@get_dimensions_md insertion_order world_without_match "Deal or no deal")
     = Return PNone
  /\ snd (@title_search insertion_order world_without_match "Deal or no deal"
            "dimensions") = Return PNone
  /\ snd (search_ssrn world_without_match "Deal or no deal")
     = Raise NoSuchElementException.
Proof.
  destruct (@lookups_without_match insertion_order world_without_match
              "Deal or no deal") as [E [O [R [D S]]]].
  split; [|split; [|split; [|split; [|split]]]].
  - rewrite (E "<response>" eq_refl); [reflexivity|].
    repeat constructor.
  - rewrite (O "<response>" eq_refl); [reflexivity|].
    repeat constructor.
  - rewrite (R "<response>" (Tag "ol" [("class", "list-group")] [])
               eq_refl eq_refl eq_refl).
    reflexivity.
  - rewrite (proj1 (D "reader@example.org" "secret" PNone eq_refl eq_refl eq_refl
                      (or_intror (ex_intro _ TypeError eq_refl)))).
    reflexivity.
  - rewrite (proj2 (D "reader@example.org" "secret" PNone eq_refl eq_refl eq_refl
                      (or_intror (ex_intro _ TypeError eq_refl)))).
    reflexivity.
  - apply (S "/usr/bin/chromedriver" ssrn_page_without_results
             (Tag "input" [("class", "form-control"); ("type", "text")] [])
             ssrn_page_without_results);
      reflexivity.
Defined.

(** C3, as stated, fails: without the listing element, [repec_get_handle]
    raises [AttributeError]; without a result link, [search_ssrn] raises
    [NoSuchElementException]. *)
Lemma lookup_without_match_raises :
  snd (repec_get_handle (fixed_world empty_document empty_document PNone)
         "Deal or no deal") = Raise AttributeError
  /\ snd (search_ssrn
            (fixed_world empty_document ssrn_page_without_results PNone)
            "Deal or no deal") = Raise NoSuchElementException.
Proof. split; reflexivity. Qed.

(** ** OpenAIRE: a title-less entry ahead of the match *)

(** C7.  In an OpenAIRE answer of two entries, the first without a
    title and the second under the queried title, the fields of the second,
    which is the first entry whose title matches, are not returned: the
    search raises [AttributeError] at the first. *)
Theorem openaire_untitled_entry_hides_match :
  Soup.find_all openaire_untitled_then_match (Some "oaf:result") []
  = [Tag "oaf:result" [] [element "url" "http://example.org/0"];
     openaire_entry "Deal or No Deal?" "http://example.org/1"
       ["Smith J"; "Doe A"] ["OPEN"]]
  /\ get_xml_node_value
       (Tag "oaf:result" [] [element "url" "http://example.org/0"]) "title"
     = None
  /\ title_match (Some "Deal or no deal")
       (get_xml_node_value
          (openaire_entry "Deal or No Deal?" "http://example.org/1"
             ["Smith J"; "Doe A"] ["OPEN"]) "title")
     = Return true
  /\ openaire_title_search
       (fixed_world openaire_untitled_then_match empty_document PNone)
       "Deal or no deal"
     = ([HttpGet "http://api.openaire.eu/search/publications?title=Deal or no deal"],
        Raise AttributeError).
Proof. repeat split. Qed.
